(** * Return-type inference and overload deduplication of freecad-stubs

    A shallow embedding of
    - [generators/common/return_type_converter/base.py]
      (class [ReturnTypeConverterBase]),
    - [generators/common/return_type_converter/full.py]
      (class [ReturnTypeConverter]), and
    - the overload deduplication of [generators/from_xml/method.py]
      ([XmlMethodGenerator.genMethod]),
    followed by the properties the specification states about them.

    Conventions.  Python [str] values are [string]s of ASCII characters.
    A method that may raise returns an [outcome]; the mutable
    [requiredImports] set is threaded explicitly through every call, so a
    resolution is a function from the set before the call to an outcome and
    the set after it.  [getExpressionType] recurses on fragments it cuts out
    of the text it is given and on text found in the function body; it is
    defined by recursion on a fuel counter, and running out of fuel is an
    outcome of its own ([OutOfFuel]), distinct from every Python exception. *)

From Stdlib Require Import String Ascii List Bool Arith Lia.
Import ListNotations.
Local Open Scope string_scope.
Local Open Scope list_scope.

(* ===================================================================== *)
(** ** Python string methods used by the converter *)
(* ===================================================================== *)

Module PyStr.

(** [s.startswith(p)] *)
Definition startswith (s p : string) : bool := String.prefix p s.

Fixpoint rev_onto (s acc : string) : string :=
  match s with
  | EmptyString => acc
  | String c s' => rev_onto s' (String c acc)
  end.

Definition rev (s : string) : string := rev_onto s EmptyString.

(** [s.endswith(p)] *)
Definition endswith (s p : string) : bool := String.prefix (rev p) (rev s).

(** [p in s] *)
Fixpoint contain (s p : string) : bool :=
  String.prefix p s ||
  match s with
  | EmptyString => false
  | String _ s' => contain s' p
  end.

Fixpoint drop (n : nat) (s : string) : string :=
  match n, s with
  | O, _ => s
  | S _, EmptyString => EmptyString
  | S n', String _ s' => drop n' s'
  end.

Fixpoint take (n : nat) (s : string) : string :=
  match n, s with
  | O, _ => EmptyString
  | S _, EmptyString => EmptyString
  | S n', String c s' => String c (take n' s')
  end.

(** [s.removeprefix(p)] *)
Definition removeprefix (s p : string) : string :=
  if startswith s p then drop (String.length p) s else s.

(** [s.removesuffix(p)] *)
Definition removesuffix (s p : string) : string :=
  if endswith s p then take (String.length s - String.length p) s else s.

(** The ASCII characters for which [str.isspace] holds: tab, line feed,
    vertical tab, form feed, carriage return, the four separators
    0x1c-0x1f, and the space. *)
Definition isspace (c : ascii) : bool :=
  let n := nat_of_ascii c in
  ((9 <=? n) && (n <=? 13) || (28 <=? n) && (n <=? 32))%nat.

Fixpoint lstrip (s : string) : string :=
  match s with
  | EmptyString => EmptyString
  | String c s' => if isspace c then lstrip s' else s
  end.

Definition rstrip (s : string) : string := rev (lstrip (rev s)).

(** [s.strip()] *)
Definition strip (s : string) : string := rstrip (lstrip s).

(** [s.split(sep, maxsplit=1)[0]] for a one-character [sep]: the text
    before the first occurrence of [sep], or all of [s]. *)
Fixpoint before_char (sep : ascii) (s : string) : string :=
  match s with
  | EmptyString => EmptyString
  | String c s' =>
      if Ascii.eqb c sep then EmptyString else String c (before_char sep s')
  end.

(** The text after the first occurrence of [sep], when there is one:
    [s.split(sep, maxsplit=1)[1]]. *)
Fixpoint after_char (sep : ascii) (s : string) : option string :=
  match s with
  | EmptyString => None
  | String c s' => if Ascii.eqb c sep then Some s' else after_char sep s'
  end.

(** [s[s.rfind(c) + 1:]]: the text after the last occurrence of [c], or all
    of [s] when [c] does not occur ([rfind] is then -1). *)
Fixpoint after_last_char (sep : ascii) (s : string) : string :=
  match s with
  | EmptyString => EmptyString
  | String c s' =>
      if contain s' (String sep EmptyString) then after_last_char sep s'
      else if Ascii.eqb c sep then s' else s
  end.

(** [s.split('::')]: the pieces between non-overlapping occurrences of the
    separator, scanned from the left.  [cur] holds the current piece in
    reverse. *)
Fixpoint split_colons_aux (s cur : string) : list string :=
  match s with
  | EmptyString => [rev cur]
  | String c s' =>
      match s' with
      | String c' s'' =>
          if Ascii.eqb c ":" && Ascii.eqb c' ":"
          then rev cur :: split_colons_aux s'' EmptyString
          else split_colons_aux s' (String c cur)
      | EmptyString => [rev (String c cur)]
      end
  end.

Definition split_colons (s : string) : list string :=
  split_colons_aux s EmptyString.

Definition is_alpha_ (c : ascii) : bool :=
  let n := nat_of_ascii c in
  ((65 <=? n) && (n <=? 90) || (97 <=? n) && (n <=? 122) || (n =? 95))%nat.

Definition is_digit (c : ascii) : bool :=
  let n := nat_of_ascii c in ((48 <=? n) && (n <=? 57))%nat.

Fixpoint all_ident_chars (s : string) : bool :=
  match s with
  | EmptyString => true
  | String c s' => (is_alpha_ c || is_digit c) && all_ident_chars s'
  end.

(** [s.isidentifier()] on ASCII text. *)
Definition isidentifier (s : string) : bool :=
  match s with
  | EmptyString => false
  | String c s' => is_alpha_ c && all_ident_chars s'
  end.

(** [s[0].isupper()] for a non-empty [s]. *)
Definition first_isupper (s : string) : bool :=
  match s with
  | EmptyString => false
  | String c _ => let n := nat_of_ascii c in ((65 <=? n) && (n <=? 90))%nat
  end.

(** [x in (a, b, ...)] on strings. *)
Definition str_in (x : string) (l : list string) : bool :=
  existsb (String.eqb x) l.

End PyStr.

Import PyStr.

(* ===================================================================== *)
(** ** Resolved types, exceptions and the resolution monad *)
(* ===================================================================== *)

(** Modelled from the spec: [ordered_set.OrderedStrSet] is not among the
    sources.  The required imports are "an ordered set of module names",
    "added-to only, never removed-from": a list without repetition in
    insertion order, where adding a present element changes nothing. *)
Definition OrderedStrSet := list string.

Fixpoint ordered_add {A : Type} (eqb : A -> A -> bool) (x : A) (l : list A)
  : list A :=
  match l with
  | [] => [x]
  | y :: l' => if eqb y x then l else y :: ordered_add eqb x l'
  end.

Definition ordered_of_list {A : Type} (eqb : A -> A -> bool) (xs : list A)
  : list A :=
  fold_left (fun acc x => ordered_add eqb x acc) xs [].

Definition OrderedStrSet_add (x : string) (s : OrderedStrSet) : OrderedStrSet :=
  ordered_add String.eqb x s.

Definition OrderedStrSet_update (xs : list string) (s : OrderedStrSet)
  : OrderedStrSet :=
  fold_left (fun acc x => OrderedStrSet_add x acc) xs s.

(** Modelled from the spec: [arg_types.UnionArgument] is not among the
    sources.  A union is "ordered-unique, insertion order preserved,
    duplicates collapsed"; the converter only ever puts type names (strings)
    into one.  [UnionArgument_init] is the constructor applied to an
    iterable, [UnionArgument_add] the [add] method; a union is truthy when
    it has a member. *)
Definition UnionArgument := list string.

Definition UnionArgument_init (args : list string) : UnionArgument :=
  ordered_of_list String.eqb args.

Definition UnionArgument_add (x : string) (u : UnionArgument) : UnionArgument :=
  ordered_add String.eqb x u.

(** [RetType = str | UnionArgument | AnyValue] *)
Inductive RetType : Type :=
| TStr (s : string)
| TUnion (u : UnionArgument)
| AnyValue.

Definition RetType_eqb (a b : RetType) : bool :=
  match a, b with
  | TStr x, TStr y => String.eqb x y
  | TUnion x, TUnion y =>
      if list_eq_dec string_dec x y then true else false
  | AnyValue, AnyValue => true
  | _, _ => false
  end.

(** The exceptions the converter raises itself, and [RuntimeError], which
    Python substitutes for a [StopIteration] that leaves a generator. *)
Inductive exn : Type :=
| InvalidReturnType
| NotImplementedError
| IndexError
| StopIteration
| RuntimeError.

Inductive outcome (A : Type) : Type :=
| Ok (a : A)
| Raise (e : exn)
| OutOfFuel.
Arguments Ok {A} a.
Arguments Raise {A} e.
Arguments OutOfFuel {A}.

(** A computation that reads and extends [requiredImports]. *)
Definition M (A : Type) : Type := OrderedStrSet -> outcome A * OrderedStrSet.

Definition ret {A : Type} (a : A) : M A := fun s => (Ok a, s).

Definition raise {A : Type} (e : exn) : M A := fun s => (Raise e, s).

Definition bind {A B : Type} (m : M A) (f : A -> M B) : M B :=
  fun s =>
    match m s with
    | (Ok a, s') => f a s'
    | (Raise e, s') => (Raise e, s')
    | (OutOfFuel, s') => (OutOfFuel, s')
    end.

Declare Scope conv_scope.
Delimit Scope conv_scope with conv.
Notation "x <- m ;; k" := (bind m (fun x => k))
  (at level 61, m at next level, right associativity) : conv_scope.
Local Open Scope conv_scope.

Definition requiredImports_add (x : string) : M unit :=
  fun s => (Ok tt, OrderedStrSet_add x s).

Definition requiredImports_update (xs : list string) : M unit :=
  fun s => (Ok tt, OrderedStrSet_update xs s).

(** [[f(x) for x in xs]] with the effects in list order. *)
Fixpoint mapM {A B : Type} (f : A -> M B) (xs : list A) : M (list B) :=
  match xs with
  | [] => ret []
  | x :: xs' => y <- f x ;; ys <- mapM f xs' ;; ret (y :: ys)
  end.

(** One match of the declaration pattern of [_findVariableType]: its named
    groups ([None] for a group that did not take part) and its span. *)
Record DecMatch : Type := {
  m_directive : option string;
  m_type : option string;
  m_val : option string;
  m_args : option string;
  m_start : nat;
  m_end : nat
}.

(** Truthiness of an optional string ([None] and [''] are falsy). *)
Definition truthy (o : option string) : bool :=
  match o with
  | Some s => negb (s =? "")
  | None => false
  end.

(** A compiled pattern with one group, reduced to what the converter asks of
    it: [finditer(body, pos, endpos)] as the list of [group(1)] texts. *)
Definition Pattern : Type := string -> nat -> nat -> list string.

(** The collaborators of the converter that are not part of the sources
    under verification.  Every property below is proved for all of them. *)
Record Externals : Type := {
  (** [cpp_function.genFuncArgs]: the arguments of the first call in a text *)
  genFuncArgs : string -> list string;
  (** [cpp_function.generateExpressionUntilChar(text, pos, char,
      bracketL, bracketR)] *)
  generateExpressionUntilChar :
    string -> nat -> string -> string -> string -> list string;
  (** [converters.removeQuote] *)
  removeQuote : string -> string;
  (** [names.getClassWithModulesFromPointer], the class registry *)
  getClassWithModulesFromPointer : string -> string;
  (** [names.getClassName] *)
  getClassName : string -> string;
  (** [names.getModuleName] *)
  getModuleName : string -> option string;
  (** [py_build_converter.parsePyBuildValues] *)
  parsePyBuildValues : string -> RetType;
  (** [variableDecReg.finditer(body, endpos=endPos)] for the pattern built
      from a variable name *)
  variableDecReg_finditer : string -> string -> nat -> list DecMatch;
  (** the assignment pattern of [_getRetTypeFromAssignment], compiled for
      a variable name: the name, [=], and the text up to the next [;] as
      group 1 *)
  assignmentReg : string -> Pattern;
  (** [getInnerType], which the container mix-ins of [ReturnTypeConverter]
      override; its first argument is the resolver of the object it is
      called on *)
  getInnerType :
    (string -> nat -> bool -> M RetType) ->
    string -> string -> nat -> nat -> nat -> M RetType;
  (** [str] of a union and of [AnyValue] *)
  str_UnionArgument : UnionArgument -> string;
  str_AnyValue : string;
  (** the value pattern [case AnyValue.value] *)
  equals_AnyValue_value : RetType -> bool;
  (** [annotation_parameter.RawRepr] applied to the unpacked types: [None] stands for a result
      that compares equal to [Signature.empty], [Some r] for one that does
      not and whose [str] is [r] *)
  RawRepr : list RetType -> option string;
  (** the [imports] property of the union of return types *)
  UnionArguments_imports : list RetType -> list string
}.

(** The attributes of a converter object other than [requiredImports].
    [classNameWithModule] is a [str] by the constructor's signature. *)
Record Self : Type := {
  functionBody : string;
  classNameWithModule : string;
  functionName : string
}.

(* ===================================================================== *)
(** ** The pattern matcher over source fragments *)
(* ===================================================================== *)

(** Modelled from the spec: [str_wrapper.StrWrapper] is not among the
    sources.  It classifies a fragment by "exact-literal equality, prefix
    match, suffix match, substring containment"; in a class pattern the
    positional argument and the keyword [start] test a prefix, [end] a
    suffix and [contain] a substring, each against the alternatives of an
    or-pattern.  A literal pattern compares the whole string. *)
Module StrWrapper.

Definition start (sw : string) (alts : list string) : bool :=
  existsb (startswith sw) alts.

Definition end_ (sw : string) (alts : list string) : bool :=
  existsb (endswith sw) alts.

Definition contain (sw : string) (alts : list string) : bool :=
  existsb (PyStr.contain sw) alts.

End StrWrapper.

(* ===================================================================== *)
(** ** [ReturnTypeConverterBase] (base.py) *)
(* ===================================================================== *)

(** The prefix of a [Py_BuildValue] call up to the quote that opens its
    format string. *)
Definition Py_BuildValue_quote : string :=
  ("Py_BuildValue(" ++ String (ascii_of_nat 34) EmptyString)%string.

Definition found (t : RetType) : M (option RetType) := ret (Some t).

Definition no_match : M (option RetType) := ret None.

(** [return <call>] inside a matcher: the callee's result is the match. *)
Definition returning (m : M RetType) : M (option RetType) :=
  t <- m ;; ret (Some t).

(** Leaving a generator: a [StopIteration] raised inside its body reaches
    the consumer as [RuntimeError]. *)
Definition generator {A : Type} (m : M A) : M A :=
  fun s =>
    match m s with
    | (Raise StopIteration, s') => (Raise RuntimeError, s')
    | r => r
    end.

Definition _removePrefixes (varText : string) : string :=
  let varText := strip varText in
  let varText :=
    if StrWrapper.start varText ["new_reference_to("; "Py::new_reference_to("]
       && StrWrapper.end_ varText [")"]
    then strip (removesuffix
                  (removeprefix (removeprefix varText "Py::") "new_reference_to(")
                  ")")
    else varText in
  strip (removeprefix (strip (removeprefix varText "const")) "*").

Definition _removeSuffix (varText : string) : string :=
  strip (removesuffix (strip (removesuffix varText "*")) "&").

Definition _extractTypeFromMatch (m : DecMatch) : option string :=
  match m_type m with
  | None => None
  | Some v =>
      if v =? "" then None
      else if str_in v ["return"; "else"] then None
      else
        let v :=
          if PyStr.contain v "<" && PyStr.contain v ">" then
            match after_char "<" v with
            | Some w => before_char ">" w
            | None => v
            end
          else v in
        Some (strip (removesuffix (strip (removeprefix v "const")) "*"))
  end.

(** [str(t)] for a resolved type. *)
Definition str_RetType (E : Externals) (t : RetType) : string :=
  match t with
  | TStr s => s
  | TUnion u => str_UnionArgument E u
  | AnyValue => str_AnyValue E
  end.

Section Resolvers.

Variable E : Externals.
Variable self : Self.

(** [self.getExpressionType] as seen from inside the methods it calls. *)
Variable getExpressionType_self : string -> nat -> bool -> M RetType.

(** The cached property [className]. *)
Definition className : string := getClassName E (classNameWithModule self).

Definition _matchLiterals (varText : string) (endPos : nat) (onlyLiteral : bool)
  : M (option RetType) :=
  if varText =? "" then found AnyValue
  else if str_in varText ["0"; "-1"; "NULL"; "nullptr"; "0L"] then
    if onlyLiteral then found AnyValue else raise InvalidReturnType
  else no_match.

Definition _matchPyType (varText : string) (endPos : nat) (onlyLiteral : bool)
  : M (option RetType) :=
  if varText =? "Py::Object()" then found (TStr "object")
  else if str_in varText ["Py_None"; "Py::None()"; "Py_Return"] then
    found (TStr "None")
  else if StrWrapper.start varText
            ["Py::Boolean"; "PyBool_From"; "Py::True"; "Py::False"] then
    found (TStr "bool")
  else if StrWrapper.start varText
            ["Py::Long"; "PyLong_From"; "Py::Int"; "PyInt_From";
             "PYINT_FROMLONG"; "int"] then
    found (TStr "int")
  else if StrWrapper.start varText ["Py::Float"; "PyFloat_From"] then
    found (TStr "float")
  else if StrWrapper.start varText ["Py::List"; "PyList_New"] then
    found (TStr "list")
  else if StrWrapper.start varText ["Py::Dict"; "PyDict_New"] then
    found (TStr "dict")
  else if StrWrapper.start varText ["Py::Callable"] then
    found (TStr "typing.Callable")
  else if StrWrapper.start varText ["PyByteArray_From"] then
    found (TStr "bytes")
  else if StrWrapper.start varText
            ["Py::String"; "PyString_From"; "PyUnicode_From"; "Py::Char";
             "PyUnicode_DecodeUTF8"; "PYSTRING_FROMSTRING"; "QString"] then
    found (TStr "str")
  else if StrWrapper.contain varText ["Py_True"; "Py_False"] then
    found (TStr "bool")
  else if StrWrapper.start varText ["Py::TupleN"] then
    if onlyLiteral then found (TStr "tuple")
    else returning
           (getInnerType E getExpressionType_self "tuple" varText 0 endPos endPos)
  else if StrWrapper.start varText ["PyTuple_Pack"] then
    subTypes <- mapM (fun v => t <- getExpressionType_self v endPos false ;;
                               ret (str_RetType E t))
                     (tl (genFuncArgs E varText)) ;;
    found (TStr ("tuple[" ++ String.concat ", " subTypes ++ "]"))
  else if StrWrapper.start varText ["Py::Tuple"; "PyTuple_New"] then
    found (TStr "tuple")
  else no_match.

Definition _matchSpecial (varText : string) (endPos : nat) (onlyLiteral : bool)
  : M (option RetType) :=
  if varText =? "getDocumentObjectPtr()" then found (TStr "FreeCAD.DocumentObject")
  else if StrWrapper.start varText ["(GetApplication().openDocument("] then
    found (TStr "FreeCAD.Document")
  else no_match.

Definition _extractWidget (varText : string) : M RetType :=
  match genFuncArgs E varText with
  | [_castArg] => ret (TStr ("qtpy.QtWidgets." ++ "QWidget"))
  | [_castArg; castType] =>
      let widgetType := removeQuote E castType in
      let widgetType :=
        if startswith widgetType "Q" then widgetType else "QWidget" in
      ret (TStr ("qtpy.QtWidgets." ++ widgetType))
  | _ => raise NotImplementedError
  end.

Definition _matchQt (varText : string) (endPos : nat) (onlyLiteral : bool)
  : M (option RetType) :=
  if StrWrapper.start varText ["wrap.fromQObject("] then
    found (TStr "qtpy.QtCore.QObject")
  else if StrWrapper.start varText ["QWidget"] then
    found (TStr "qtpy.QtWidgets.QWidget")
  else if StrWrapper.start varText ["wrap.fromQWidget("] then
    returning (_extractWidget varText)
  else if StrWrapper.start varText ["wrap.fromQIcon("] then
    found (TStr "qtpy.QtGui.QIcon")
  else no_match.

Definition _extractPivy (varText : string) : M RetType :=
  let withoutPrefix :=
    removeprefix varText "Base::Interpreter().createSWIGPointerObj" in
  match genFuncArgs E withoutPrefix with
  | a0 :: a1 :: _ =>
      let module := removeQuote E a0 in
      let klass := removeQuote E a1 in
      if negb (startswith module "pivy") || PyStr.contain klass "(" then
        ret AnyValue
      else
        let klass := strip (removesuffix (removeprefix klass "_p_") "*") in
        ret (TStr (module ++ "." ++ klass))
  | _ => raise IndexError
  end.

Definition _extractBuildValue (varText : string) (endPos : nat) : M RetType :=
  match genFuncArgs E varText with
  | [] => raise IndexError
  | a0 :: rest =>
      let formatText := removeQuote E a0 in
      let pythonType := parsePyBuildValues E formatText in
      if negb (RetType_eqb pythonType AnyValue) then ret pythonType
      else
        match rest with
        | [] => raise IndexError
        | a1 :: _ => getExpressionType_self (strip a1) endPos true
        end
  end.

(** The class token [_findClassWithModule] cuts out of its argument. *)
Definition _findClassWithModule_cType (text : string) : string :=
  let cType := removeprefix (removeprefix text "Py::asObject(new ") "new " in
  before_char "(" cType.

Definition _findClassWithModule (text mustDiffer : string) : M RetType :=
  let cType := _findClassWithModule_cType text in
  let classWithModule := getClassWithModulesFromPointer E cType in
  let cl := getClassName E classWithModule in
  if cl =? className then ret (TStr (classNameWithModule self))
  else if cl =? "PropertyComplexGeoData" then
    (* it may be any of the following *)
    ret (TUnion (UnionArgument_init
                   ["Mesh.MeshObject"; "Part.Shape"; "Points.PointKernel"]))
  else if negb (classWithModule =? mustDiffer)
          && truthy (getModuleName E classWithModule) then
    match getModuleName E classWithModule with
    | Some mod_ => _ <- requiredImports_add mod_ ;; ret (TStr classWithModule)
    | None => ret AnyValue
    end
  else ret AnyValue.

Definition _matchMethodCall (varText : string) (endPos : nat) (onlyLiteral : bool)
  : M (option RetType) :=
  if varText =? "type->tp_new(type, this, nullptr)" then
    returning (getExpressionType_self "type" endPos false)
  else if str_in varText ["this->GetType()"; "IncRef()"] then
    found (TStr (classNameWithModule self))
  else if StrWrapper.end_ varText ["->copyPyObject()"] then
    let original := removesuffix varText "->copyPyObject()" in
    returning (getExpressionType_self original endPos false)
  else if StrWrapper.end_ varText ["->c_str()"] then found (TStr "str")
  else if StrWrapper.start varText ["PyRun_String"] then found AnyValue
  else if StrWrapper.start varText
            ["Base::Interpreter().createSWIGPointerObj("] then
    returning (_extractPivy varText)
  else if StrWrapper.start varText ["new "; "Py::asObject(new "] then
    returning (_findClassWithModule varText "")
  else if StrWrapper.start varText [Py_BuildValue_quote] then
    returning (_extractBuildValue varText endPos)
  else if StrWrapper.start varText
            ["Py::asObject("; "Py::Object("; "createPyObject("] then
    match genFuncArgs E varText with
    | [] => raise StopIteration
    | rawReturnVarName :: _ =>
        returning (getExpressionType_self rawReturnVarName endPos false)
    end
  else if StrWrapper.end_ varText ["Py"]
          && (isidentifier varText && first_isupper varText) then
    returning (_findClassWithModule varText "")
  else if StrWrapper.end_ varText ["->getPyObject()"; ".getPyObject()"] then
    let varText :=
      removesuffix
        (removesuffix
           (removesuffix (removesuffix varText "getPyObject()") ".") "->") ")" in
    let varText := after_last_char "(" varText in
    returning (getExpressionType_self varText endPos false)
  else no_match.

Definition _matchFreeCAD (varText : string) (endPos : nat) (onlyLiteral : bool)
  : M (option RetType) :=
  if StrWrapper.start varText ["Py::BoundingBox"] then found (TStr "FreeCAD.BoundBox")
  else if StrWrapper.start varText ["Py::Matrix"] then found (TStr "FreeCAD.Matrix")
  else if StrWrapper.start varText ["Py::Rotation"] then
    found (TStr "FreeCAD.Rotation")
  else if StrWrapper.start varText ["Py::Placement"] then
    found (TStr "FreeCAD.Placement")
  else if StrWrapper.start varText ["Py::Vector2d"; "Base::Vector2dPy::create("] then
    found (TStr "FreeCAD.Vector2d")
  else if StrWrapper.start varText ["Py::Vector"] then found (TStr "FreeCAD.Vector")
  else if StrWrapper.start varText ["MainWindowPy::createWrapper"] then
    found (TStr "FreeCADGui.MainWindowPy")
  else if StrWrapper.start varText ["shape2pyshape"; "Part::shape2pyshape"] then
    found (TStr "Part.Shape")
  else if StrWrapper.start varText ["getShapes<"] then
    let templateClass := before_char ">" (removeprefix varText "getShapes<") in
    innerClass <- getExpressionType_self templateClass endPos false ;;
    found (TStr ("list[" ++ str_RetType E innerClass ++ "]"))
  else no_match.

(** The body of the generator [_genVariableTypeFromRegex], collected. *)
Fixpoint _genVariableTypeFromRegex_items
  (texts : list string) (endPos : nat) (onlyLiteral : bool) : M (list string) :=
  match texts with
  | [] => ret []
  | variableTypeText :: texts' =>
      varType <- getExpressionType_self variableTypeText endPos onlyLiteral ;;
      let yielded :=
        match varType with
        | TUnion u => u
        | TStr s => [s]
        | AnyValue => []
        end in
      later <- _genVariableTypeFromRegex_items texts' endPos onlyLiteral ;;
      ret (yielded ++ later)
  end.

Definition _genVariableTypeFromRegex
  (regex : Pattern) (startPos endPos : nat) (onlyLiteral : bool)
  : M (list string) :=
  generator
    (_genVariableTypeFromRegex_items
       (regex (functionBody self) startPos endPos) endPos onlyLiteral).

Definition _getRetTypeFromAssignment
  (variableName : string) (startPos endPos : nat) : M RetType :=
  let regex := assignmentReg E variableName in
  gen <- _genVariableTypeFromRegex regex startPos endPos false ;;
  match UnionArgument_init gen with
  | [] => ret AnyValue
  | union => ret (TUnion union)
  end.

Definition placeholderTypes : list string :=
  ["auto"; "PyObject"; "Py::Object"; "PyTypeObject"; "PyObjectBase"].

(** The first statement of the loop body of [_findVariableType]: the type
    the declaration itself gives, from the right-hand side or the first
    constructor argument when the declared type is a placeholder, and from
    the declared type's name otherwise. *)
Definition _findVariableType_declared
  (endPos : nat) (declarationMatch : DecMatch) (varTypeDec : string)
  : M RetType :=
  if str_in varTypeDec placeholderTypes then
    if truthy (m_val declarationMatch) then
      match m_val declarationMatch with
      | Some assignValue => getExpressionType_self assignValue endPos true
      | None => ret AnyValue
      end
    else if negb (varTypeDec =? "auto") && truthy (m_args declarationMatch) then
      match m_args declarationMatch with
      | Some argsValue =>
          match generateExpressionUntilChar E argsValue 0 "," "(" ")" with
          | [] => raise IndexError
          | a0 :: _ => getExpressionType_self a0 endPos false
          end
      | None => ret AnyValue
      end
    else ret AnyValue
  else getExpressionType_self varTypeDec endPos true.

(** The body of the loop of [_findVariableType] for a match that is not
    skipped, up to the [return varType] that ends the search. *)
Definition _findVariableType_body
  (variableName : string) (endPos : nat)
  (declarationMatch : DecMatch) (varTypeDec : string) : M RetType :=
  varType <- _findVariableType_declared endPos declarationMatch varTypeDec ;;
  let isNone := RetType_eqb varType (TStr "None") in
  varType <-
    (if isNone || RetType_eqb varType AnyValue then
       varType <- _getRetTypeFromAssignment
                    variableName (m_end declarationMatch) endPos ;;
       if isNone then
         match varType with
         | TUnion u => ret (TUnion (UnionArgument_add "None" u))
         | TStr s => ret (TUnion (UnionArgument_init ["None"; s]))
         | AnyValue =>
             if equals_AnyValue_value E varType then ret (TStr "None")
             else ret varType
         end
       else ret varType
     else ret varType) ;;
  match varType with
  | TStr s =>
      getInnerType E getExpressionType_self s variableName
        (m_start declarationMatch) (m_end declarationMatch) endPos
  | _ => ret varType
  end.

(** Whether the loop of [_findVariableType] skips a match: it is a
    preprocessor directive, or no type can be taken from it. *)
Definition skipped (m : DecMatch) : bool :=
  truthy (m_directive m) || negb (truthy (_extractTypeFromMatch m)).

(** The loop [for declarationMatch in reversed(matches)] and the statement
    after it, over the matches already reversed. *)
Fixpoint _findVariableType_loop
  (variableName : string) (endPos : nat) (reversedMatches : list DecMatch)
  : M RetType :=
  match reversedMatches with
  | [] => getExpressionType_self variableName endPos true
  | declarationMatch :: earlier =>
      if truthy (m_directive declarationMatch) then
        _findVariableType_loop variableName endPos earlier
      else
        match _extractTypeFromMatch declarationMatch with
        | Some varTypeDec =>
            if varTypeDec =? "" then
              _findVariableType_loop variableName endPos earlier
            else
              _findVariableType_body variableName endPos
                declarationMatch varTypeDec
        | None => _findVariableType_loop variableName endPos earlier
        end
  end.

Definition _findVariableType (variableName : string) (endPos : nat) : M RetType :=
  if variableName =? "this" then ret (TStr (classNameWithModule self))
  else
    let matches :=
      variableDecReg_finditer E variableName (functionBody self) endPos in
    _findVariableType_loop variableName endPos (List.rev matches).

(** The warning logged for an unknown fragment has no effect on the
    result and is left out. *)
Definition _matchFinalPossibilities
  (varText : string) (endPos : nat) (onlyLiteral : bool) : M (option RetType) :=
  if onlyLiteral then
    if forallb isidentifier (split_colons varText) then
      let maybeClass :=
        if negb (endswith varText "Py") then (varText ++ "Py")%string
        else varText in
      returning (_findClassWithModule maybeClass varText)
    else found AnyValue
  else if isidentifier varText then
    returning (_findVariableType varText endPos)
  else if StrWrapper.start varText ["("] && StrWrapper.end_ varText [")"] then
    returning
      (getExpressionType_self
         (removesuffix (removeprefix varText "(") ")") endPos onlyLiteral)
  else if StrWrapper.contain varText ["=="] then found (TStr "bool")
  else found AnyValue.

(** The tuple of methods [getExpressionType] iterates over, in its order. *)
Definition resolvers : list (string -> nat -> bool -> M (option RetType)) :=
  [ _matchLiterals;
    _matchPyType;
    _matchSpecial;
    _matchQt;
    _matchMethodCall;
    _matchFreeCAD;
    _matchFinalPossibilities ].

(** [for method in (...): if (result := method(...)) is not None: return
    result], then [return AnyValue]. *)
Fixpoint dispatch
  (methods : list (string -> nat -> bool -> M (option RetType)))
  (sw : string) (endPos : nat) (onlyLiteral : bool) : M RetType :=
  match methods with
  | [] => ret AnyValue
  | method :: rest =>
      result <- method sw endPos onlyLiteral ;;
      match result with
      | Some t => ret t
      | None => dispatch rest sw endPos onlyLiteral
      end
  end.

Definition getExpressionType_body
  (varText : string) (endPos : nat) (onlyLiteral : bool) : M RetType :=
  let varText := _removePrefixes varText in
  let varText := _removeSuffix varText in
  dispatch resolvers varText endPos onlyLiteral.

End Resolvers.

(** [ReturnTypeConverterBase.getInnerType]: the hook as the base class
    defines it. *)
Definition getInnerType_base
  (getExpressionType_self : string -> nat -> bool -> M RetType)
  (varType variableName : string) (decStartPos decEndPos endPos : nat)
  : M RetType :=
  ret (TStr varType).

(** [getExpressionType]: each level of fuel allows one more nested call of
    the method on itself. *)
Fixpoint getExpressionType
  (E : Externals) (self : Self) (fuel : nat)
  (varText : string) (endPos : nat) (onlyLiteral : bool) : M RetType :=
  match fuel with
  | O => fun s => (OutOfFuel, s)
  | S fuel' =>
      getExpressionType_body E self (getExpressionType E self fuel')
        varText endPos onlyLiteral
  end.

(* ===================================================================== *)
(** ** [ReturnTypeConverter] (full.py) *)
(* ===================================================================== *)

(** [REG_RETURN.finditer(body)] for [REG_RETURN = 'return ([^;]+);']: the
    matches from left to right, without overlap, each as [group(1)] and
    [end()].  [pos] is the offset of [s] in the body and [skip] the number
    of characters of [s] that belong to the match found last. *)
Fixpoint REG_RETURN_scan (s : string) (pos skip : nat) : list (string * nat) :=
  match s with
  | EmptyString => []
  | String _ s' =>
      match skip with
      | S skip' => REG_RETURN_scan s' (S pos) skip'
      | O =>
          if startswith s "return " then
            let rest := drop 7 s in
            let group1 := before_char ";" rest in
            match group1, after_char ";" rest with
            | String _ _, Some _ =>
                let width := 7 + String.length group1 + 1 in
                (group1, pos + width) :: REG_RETURN_scan s' (S pos) (width - 1)
            | _, _ => REG_RETURN_scan s' (S pos) 0
            end
          else REG_RETURN_scan s' (S pos) 0
      end
  end.

Definition REG_RETURN_finditer (body : string) : list (string * nat) :=
  REG_RETURN_scan body 0 0.

(** [try: body except InvalidReturnType: handler] *)
Definition try_except_InvalidReturnType {A : Type} (body handler : M A) : M A :=
  fun s =>
    match body s with
    | (Raise InvalidReturnType, s') => handler s'
    | r => r
    end.

Section Converter.

Variable E : Externals.
Variable self : Self.
Variable fuel : nat.

(** What one iteration of the loop of [_genReturnType] yields.  The union
    class tested by [isinstance] is the one [getExpressionType] returns. *)
Definition _genReturnType_step (m : string * nat) : M (list RetType) :=
  try_except_InvalidReturnType
    (retType <- getExpressionType E self fuel (fst m) (snd m) false ;;
     match retType with
     | TUnion u => ret (map TStr u)
     | _ => ret [retType]
     end)
    (ret []).

Fixpoint _genReturnType_items (matches : list (string * nat)) : M (list RetType) :=
  match matches with
  | [] => ret []
  | m :: rest =>
      yielded <- _genReturnType_step m ;;
      later <- _genReturnType_items rest ;;
      ret (yielded ++ later)
  end.

(** The generator [_genReturnType], collected. *)
Definition _genReturnType : M (list RetType) :=
  generator (_genReturnType_items (REG_RETURN_finditer (functionBody self))).

(** [getReturnType]: [None] is a result equal to [Signature.empty]. *)
Definition getReturnType : M (option string) :=
  items <- _genReturnType ;;
  let returnTypes := ordered_of_list RetType_eqb items in
  let ret_ := RawRepr E returnTypes in
  _ <- requiredImports_update (UnionArguments_imports E returnTypes) ;;
  ret ret_.

Definition getStrReturnType : M string :=
  r <- getReturnType ;;
  match r with
  | Some rendered => ret rendered
  | None => ret "object"
  end.

End Converter.

(* ===================================================================== *)
(** ** [XmlMethodGenerator.genMethod] (method.py): the overload set *)
(* ===================================================================== *)

Module Method.

(** A [dict] with string keys whose values are all [None], as
    [dict.fromkeys] builds it: the keys in insertion order. *)
Definition KeyDict := list (string * unit).

(** [d[k] = None]: a new key goes last, a present key keeps its place. *)
Fixpoint setitem (k : string) (d : KeyDict) : KeyDict :=
  match d with
  | [] => [(k, tt)]
  | (k', v) :: d' => if k' =? k then (k', tt) :: d' else (k', v) :: setitem k d'
  end.

(** [dict.fromkeys(iterable)] *)
Definition fromkeys (ks : list string) : KeyDict :=
  fold_left (fun d k => setitem k d) ks [].

(** [list(d.keys())] *)
Definition keys (d : KeyDict) : list string := map fst d.

Section GenMethod.

(** A signature candidate ([SelfSignature]) and its [str]. *)
Variable Signature : Type.
Variable str : Signature -> string.

(** The list [signatures] that [genMethod] hands to the stub writer, from
    the list [allSignatures] of every candidate found. *)
Definition genMethod_signatures (allSignatures : list Signature) : list string :=
  let uniqueSignatures := fromkeys (map str allSignatures) in
  keys uniqueSignatures.

End GenMethod.

End Method.

(** First-seen-wins deduplication said directly: keep an element, drop its
    later repetitions, go on with what is left. *)
Fixpoint first_seen (l : list string) : list string :=
  match l with
  | [] => []
  | x :: l' => x :: filter (fun y => negb (y =? x)) (first_seen l')
  end.

(* ===================================================================== *)
(** ** A concrete set of collaborators *)
(* ===================================================================== *)

(** The properties below hold for every [Externals].  To run the converter
    on concrete fragments one instance is fixed here. *)
Module Sample.

(** Splitting at the commas that are outside every pair of parentheses;
    [cur] holds the current piece in reverse, [depth] counts the open
    parentheses, and the scan stops at a closing parenthesis that has no
    partner. *)
Fixpoint split_top_level (s cur : string) (depth : nat) : list string :=
  match s with
  | EmptyString => [strip (rev cur)]
  | String c s' =>
      if Ascii.eqb c "(" then split_top_level s' (String c cur) (S depth)
      else if Ascii.eqb c ")" then
        match depth with
        | O => [strip (rev cur)]
        | S depth' => split_top_level s' (String c cur) depth'
        end
      else if Ascii.eqb c "," && Nat.eqb depth 0 then
        strip (rev cur) :: split_top_level s' EmptyString 0
      else split_top_level s' (String c cur) depth
  end.

(** Modelled from the spec: [cpp_function.genFuncArgs] is not among the
    sources; the scanner does "balanced-delimiter splitting" of "bracketed
    expressions".  Here: the arguments between the first opening
    parenthesis of the text and its partner, split at top-level commas. *)
Definition genFuncArgs (text : string) : list string :=
  match after_char "(" text with
  | None => []
  | Some inner =>
      match split_top_level inner EmptyString 0 with
      | [EmptyString] => []
      | args => args
      end
  end.

(** Modelled from the spec: [cpp_function.generateExpressionUntilChar] is
    not among the sources; for the one call the converter makes (from
    offset 0, at commas, with parentheses as brackets) it is the same
    balanced splitting. *)
Definition generateExpressionUntilChar
  (text : string) (pos : nat) (char bracketL bracketR : string) : list string :=
  split_top_level (drop pos text) EmptyString 0.

Definition dquote : string := String (ascii_of_nat 34) EmptyString.

(** Modelled from the spec: [converters.removeQuote] is not among the
    sources; arguments it is applied to are "quoted class-name literals". *)
Definition removeQuote (text : string) : string :=
  removesuffix (removeprefix (strip text) dquote) dquote.

(** Modelled from the spec: [names.getClassWithModulesFromPointer] is not
    among the sources; it is "a precomputed mapping from native
    pointer/class names to their Python module".  Here a table of five
    classes; any other token maps to itself, without module. *)
Definition getClassWithModulesFromPointer (cType : string) : string :=
  if cType =? "VectorPy" then "FreeCAD.Vector"
  else if cType =? "Base::VectorPy" then "FreeCAD.Vector"
  else if cType =? "MeshPy" then "Mesh.Mesh"
  else if cType =? "DocumentPy" then "FreeCAD.Document"
  else if cType =? "PropertyComplexGeoDataPy" then "FreeCAD.PropertyComplexGeoData"
  else cType.

(** Modelled from the spec: [names.getClassName] is not among the sources;
    a qualified name is "Module.Class". *)
Definition getClassName (classWithModules : string) : string :=
  after_last_char "." classWithModules.

Definition getModuleName (classWithModules : string) : option string :=
  if PyStr.contain classWithModules "." then
    Some (take (String.length classWithModules
                - String.length (getClassName classWithModules) - 1)
               classWithModules)
  else None.

(** Modelled from the spec: [py_build_converter.parsePyBuildValues] is not
    among the sources; it "maps printf-like codes to Python types". *)
Definition parsePyBuildValues (formatText : string) : RetType :=
  if formatText =? "i" then TStr "int"
  else if formatText =? "d" then TStr "float"
  else if formatText =? "s" then TStr "str"
  else AnyValue.

(** The function body the examples run on, and the matches of the
    declaration pattern for [x] in it: the two declarations and the
    [return] statement. *)
Definition body_two_declarations : string :=
  "Py::Float x; Py::Long x; return x;".

Definition matches_two_declarations : list DecMatch :=
  [ {| m_directive := None; m_type := Some "Py::Float"; m_val := None;
       m_args := None; m_start := 0; m_end := 12 |};
    {| m_directive := None; m_type := Some "Py::Long"; m_val := None;
       m_args := None; m_start := 12; m_end := 24 |};
    {| m_directive := None; m_type := Some "return"; m_val := None;
       m_args := None; m_start := 24; m_end := 34 |} ].

(** A body that declares [res] as [Py_None] and assigns to it twice. *)
Definition body_none_then_assigned : string :=
  "PyObject* res = Py_None; res = Py::Float(a); res = Py::String(b); return res;".

Definition matches_none_then_assigned : list DecMatch :=
  [ {| m_directive := None; m_type := Some "PyObject*"; m_val := Some "Py_None";
       m_args := None; m_start := 0; m_end := 24 |};
    {| m_directive := None; m_type := Some "return"; m_val := None;
       m_args := None; m_start := 65; m_end := 77 |} ].

Definition variableDecReg_finditer
  (variableName body : string) (endPos : nat) : list DecMatch :=
  let table :=
    if (variableName =? "x") && (body =? body_two_declarations)
    then matches_two_declarations
    else if (variableName =? "res") && (body =? body_none_then_assigned)
    then matches_none_then_assigned
    else [] in
  filter (fun m => Nat.leb (m_end m) endPos) table.

(** The matches of the assignment pattern for [res] on that body, each
    with its group 1 and its span. *)
Definition assignments_none_then_assigned : list (string * (nat * nat)) :=
  [ ("Py_None", (10, 24));
    ("Py::Float(a)", (25, 44));
    ("Py::String(b)", (45, 65)) ].

Definition assignmentReg (variableName : string) : Pattern :=
  fun body pos endpos =>
    if (variableName =? "res") && (body =? body_none_then_assigned)
    then map fst
           (filter (fun m => Nat.leb pos (fst (snd m))
                             && Nat.leb (snd (snd m)) endpos)
                   assignments_none_then_assigned)
    else [].

Definition str_UnionArgument (u : UnionArgument) : string :=
  String.concat " | " u.

Definition RawRepr (types : list RetType) : option string :=
  match types with
  | [] => None
  | _ =>
      Some (String.concat " | "
              (map (fun t => match t with
                             | TStr s => s
                             | TUnion u => str_UnionArgument u
                             | AnyValue => "typing.Any"
                             end) types))
  end.

Definition UnionArguments_imports (types : list RetType) : list string :=
  flat_map (fun t => match t with
                     | TStr s => match getModuleName s with
                                 | Some m => [m]
                                 | None => []
                                 end
                     | _ => []
                     end) types.

Definition externals : Externals :=
  Build_Externals
    genFuncArgs generateExpressionUntilChar removeQuote
    getClassWithModulesFromPointer getClassName getModuleName
    parsePyBuildValues variableDecReg_finditer assignmentReg
    getInnerType_base str_UnionArgument "typing.Any"
    (fun t => RetType_eqb t AnyValue) RawRepr UnionArguments_imports.

Definition converter (body classNameWithModule : string) : Self := {|
  functionBody := body;
  classNameWithModule := classNameWithModule;
  functionName := ""
|}.

End Sample.


(* ===================================================================== *)
(** ** Notions used in the statements *)
(* ===================================================================== *)

(** The bare class name [_findClassWithModule] compares: the class part of
    what the registry gives for the class token of the expression. *)
Definition resolvedClass (E : Externals) (text : string) : string :=
  getClassName E
    (getClassWithModulesFromPointer E (_findClassWithModule_cType text)).

(** The three classes a [PropertyComplexGeoData] may stand for. *)
Definition geometryUnion : RetType :=
  TUnion ["Mesh.MeshObject"; "Part.Shape"; "Points.PointKernel"].

(** The text of a parametrized tuple type with the given inner types. *)
Definition tuple_of (inner : list string) : string :=
  "tuple[" ++ String.concat ", " inner ++ "]".

(** A resolver is silent when answering [None] leaves the required imports
    as they were. *)
Definition silent (m : M (option RetType)) : Prop :=
  forall s s', m s = (Ok None, s') -> s' = s.

(** The chain in the order of section 4.2 of the specification: literal
    rules, foreign-object-builder rules, domain-object rules (step 4),
    GUI-toolkit wrapper rules (step 5), method-call rules (step 6),
    fallback.  The domain-object rules are the tables of [_matchSpecial]
    and [_matchFreeCAD]. *)
Definition resolvers_in_spec_order
  (E : Externals) (self : Self)
  (getExpressionType_self : string -> nat -> bool -> M RetType)
  : list (string -> nat -> bool -> M (option RetType)) :=
  [ _matchLiterals;
    _matchPyType E getExpressionType_self;
    _matchSpecial;
    _matchFreeCAD E getExpressionType_self;
    _matchQt E;
    _matchMethodCall E self getExpressionType_self;
    _matchFinalPossibilities E self getExpressionType_self ].

Fixpoint getExpressionType_in_spec_order
  (E : Externals) (self : Self) (fuel : nat)
  (varText : string) (endPos : nat) (onlyLiteral : bool) : M RetType :=
  match fuel with
  | O => fun s => (OutOfFuel, s)
  | S fuel' =>
      dispatch
        (resolvers_in_spec_order E self
           (getExpressionType_in_spec_order E self fuel'))
        (_removeSuffix (_removePrefixes varText)) endPos onlyLiteral
  end.

(** The prefix rules of [_matchPyType] that come before its containment
    rule, as pairs of a prefix and the type its rule returns. *)
Definition builderPrefixes : list (string * string) :=
  [ ("Py::Boolean", "bool"); ("PyBool_From", "bool");
    ("Py::True", "bool"); ("Py::False", "bool");
    ("Py::Long", "int"); ("PyLong_From", "int"); ("Py::Int", "int");
    ("PyInt_From", "int"); ("PYINT_FROMLONG", "int"); ("int", "int");
    ("Py::Float", "float"); ("PyFloat_From", "float");
    ("Py::List", "list"); ("PyList_New", "list");
    ("Py::Dict", "dict"); ("PyDict_New", "dict");
    ("Py::Callable", "typing.Callable");
    ("PyByteArray_From", "bytes");
    ("Py::String", "str"); ("PyString_From", "str");
    ("PyUnicode_From", "str"); ("Py::Char", "str");
    ("PyUnicode_DecodeUTF8", "str"); ("PYSTRING_FROMSTRING", "str");
    ("QString", "str") ].

(** A computation extends the required imports when the set it leaves is
    the set it was given followed by the modules it added. *)
Definition extends {A : Type} (m : M A) : Prop :=
  forall s, exists added, snd (m s) = s ++ added.

(** Whenever the computation ends in [InvalidReturnType], [Q] holds: [Q]
    says where the exception came from. *)
Definition blames {A : Type} (Q : Prop) (m : M A) : Prop :=
  forall s s', m s = (Raise InvalidReturnType, s') -> Q.

(** Some call of the resolver ended in [InvalidReturnType]. *)
Definition some_call_raises
  (resolver : string -> nat -> bool -> M RetType) : Prop :=
  exists v endPos onlyLiteral s s',
    resolver v endPos onlyLiteral s = (Raise InvalidReturnType, s').

(** A resolver that always has an answer: it never returns [None]. *)
Definition answers (m : M (option RetType)) : Prop :=
  forall s s', m s <> (Ok None, s').

(** The sentinel literals of [_matchLiterals]. *)
Definition sentinels : list string := ["0"; "-1"; "NULL"; "nullptr"; "0L"].


(** A body in which a variable is assigned a wrapper of itself, with the
    matches of the two patterns of the variable-type search on it, and the
    sample collaborators carrying these matches. *)
Module SelfAssignment.

Definition body : string :=
  "PyObject* res = nullptr; res = Py::asObject(res); return res;".

Definition declaration (start_ end_ : nat) : DecMatch :=
  {| m_directive := None; m_type := Some "PyObject*";
     m_val := Some "nullptr"; m_args := None;
     m_start := start_; m_end := end_ |}.

Definition return_match : DecMatch :=
  {| m_directive := None; m_type := Some "return"; m_val := None;
     m_args := None; m_start := 49; m_end := 61 |}.

Definition externals : Externals :=
  Build_Externals
    Sample.genFuncArgs Sample.generateExpressionUntilChar Sample.removeQuote
    Sample.getClassWithModulesFromPointer Sample.getClassName
    Sample.getModuleName Sample.parsePyBuildValues
    (fun variableName text endPos =>
       if (variableName =? "res") && (text =? body) && Nat.leb 61 endPos
       then [declaration 0 24; return_match] else [])
    (fun variableName text pos endpos =>
       if (variableName =? "res") && (text =? body)
          && Nat.leb pos 25 && Nat.leb 49 endpos
       then ["Py::asObject(res)"] else [])
    getInnerType_base Sample.str_UnionArgument "typing.Any"
    (fun t => RetType_eqb t AnyValue) Sample.RawRepr
    Sample.UnionArguments_imports.

End SelfAssignment.

(* ===================================================================== *)
(** ** [ReturnTypeConverter.getExceptionsFromCode] (full.py) *)
(* ===================================================================== *)

(** The collaborators of [getExceptionsFromCode] that are not part of the
    sources under verification: the exception registry, the validation of
    Python names, and the two compiled patterns, each reduced to its
    [finditer] over the body ([EXCEPTION_PY_REG] gives the groups [exc] and
    [args] of a match, [EXCEPTION_SET_STRING_REG] its group 1). *)
Record ExceptionExternals : Type := {
  getExceptionText : string -> string;
  validatePythonValue : string -> option string;
  EXCEPTION_PY_REG_finditer : string -> list (string * string);
  EXCEPTION_SET_STRING_REG_finditer : string -> list string
}.

Section ExceptionsFromCode.

Variable E : Externals.
Variable X : ExceptionExternals.

(** The end of the first loop body: the thrown name is kept when it is a
    valid Python name (otherwise an error is logged). *)
Definition add_thrown_name (exceptionName : string) (exceptions : OrderedStrSet)
  : OrderedStrSet :=
  match validatePythonValue X exceptionName with
  | None => exceptions
  | Some _ => OrderedStrSet_add exceptionName exceptions
  end.

(** One iteration of the loop over [throw Py::...(...)]. *)
Definition thrown_step (m : string * string) (exceptions : OrderedStrSet)
  : outcome OrderedStrSet :=
  let exceptionName := fst m in
  let exceptionArgs := snd m in
  if (exceptionName =? "Exception") && negb (exceptionArgs =? "") then
    match generateExpressionUntilChar E exceptionArgs 0 "," "(" ")" with
    | [] => Raise IndexError
    | realExceptionName :: _ =>
        if negb (realExceptionName =? "") then
          Ok (OrderedStrSet_add (getExceptionText X realExceptionName)
                exceptions)
        else Ok (add_thrown_name exceptionName exceptions)
    end
  else Ok (add_thrown_name exceptionName exceptions).

(** One iteration of the loop over [PyErr_SetString(...)]. *)
Definition set_string_step (group1 : string) (exceptions : OrderedStrSet)
  : outcome OrderedStrSet :=
  match generateExpressionUntilChar E group1 0 "," "(" ")" with
  | [] => Raise IndexError
  | a0 :: _ => Ok (OrderedStrSet_add (getExceptionText X a0) exceptions)
  end.

(** A [for] loop whose body updates the set of exceptions or raises. *)
Fixpoint for_each {A : Type}
  (step : A -> OrderedStrSet -> outcome OrderedStrSet)
  (items : list A) (exceptions : OrderedStrSet) : outcome OrderedStrSet :=
  match items with
  | [] => Ok exceptions
  | item :: rest =>
      match step item exceptions with
      | Ok exceptions' => for_each step rest exceptions'
      | Raise e => Raise e
      | OutOfFuel => OutOfFuel
      end
  end.

Definition getExceptionsFromCode (self : Self) : outcome OrderedStrSet :=
  match for_each thrown_step
          (EXCEPTION_PY_REG_finditer X (functionBody self)) [] with
  | Ok exceptions =>
      for_each set_string_step
        (EXCEPTION_SET_STRING_REG_finditer X (functionBody self)) exceptions
  | Raise e => Raise e
  | OutOfFuel => OutOfFuel
  end.

(** Where a reported exception can come from: the first argument of a
    [throw Py::Exception(...)], a thrown name that is a valid Python name,
    or the first argument of a [PyErr_SetString(...)]. *)
Definition reported_by_body (self : Self) (x : string) : Prop :=
  (exists args a rest,
      In ("Exception", args)
         (EXCEPTION_PY_REG_finditer X (functionBody self))
      /\ generateExpressionUntilChar E args 0 "," "(" ")" = a :: rest
      /\ a <> "" /\ x = getExceptionText X a)
  \/ (exists args,
         In (x, args) (EXCEPTION_PY_REG_finditer X (functionBody self))
         /\ validatePythonValue X x <> None)
  \/ (exists group1 a rest,
         In group1 (EXCEPTION_SET_STRING_REG_finditer X (functionBody self))
         /\ generateExpressionUntilChar E group1 0 "," "(" ")" = a :: rest
         /\ x = getExceptionText X a).

End ExceptionsFromCode.

(* ===================================================================== *)
(** ** [FreecadStubGeneratorFromCppClass._getPythonClass] (klass.py) *)
(* ===================================================================== *)

Module Klass.

(** The method returns a class name or [None], or raises [ValueError]. *)
Inductive result : Type :=
| Returned (pythonClass : option string)
| ValueError (msg : string).

(** The statements after the [match]: the module of the class, when it has
    one, is added to the required imports. *)
Definition import_and_return
  (E : Externals) (classWithModule : string) (requiredImports : OrderedStrSet)
  : result * OrderedStrSet :=
  if truthy (getModuleName E classWithModule) then
    match getModuleName E classWithModule with
    | Some mod_ =>
        (Returned (Some classWithModule),
         OrderedStrSet_add mod_ requiredImports)
    | None => (Returned (Some classWithModule), requiredImports)
    end
  else (Returned (Some classWithModule), requiredImports).

Definition _getPythonClass
  (E : Externals) (baseClass : string) (requiredImports : OrderedStrSet)
  : result * OrderedStrSet :=
  if baseClass =? "QMainWindow" then
    import_and_return E "qtpy.QtWidgets.QMainWindow" requiredImports
  else if StrWrapper.start baseClass ["Q"] then
    (ValueError "Unknown qt class", requiredImports)
  else if StrWrapper.end_ baseClass ["Py"] then
    import_and_return E (getClassWithModulesFromPointer E baseClass)
      requiredImports
  else (Returned None, requiredImports).

End Klass.

(** A body with two throws and one [PyErr_SetString], the matches of the
    two exception patterns on it, and sample collaborators for
    [getExceptionsFromCode]. *)
Module SampleExceptions.

Definition body : string :=
  "throw Py::TypeError(msg); PyErr_SetString(PyExc_TypeError, msg); throw Py::Exception(PyExc_ValueError, msg);".

Definition externals : ExceptionExternals := {|
  getExceptionText := fun text => removeprefix (strip text) "PyExc_";
  validatePythonValue := fun name =>
    if isidentifier name then Some name else None;
  EXCEPTION_PY_REG_finditer := fun text =>
    if text =? body
    then [("TypeError", "msg"); ("Exception", "PyExc_ValueError, msg")]
    else [];
  EXCEPTION_SET_STRING_REG_finditer := fun text =>
    if text =? body then ["PyExc_TypeError, msg"] else []
|}.

End SampleExceptions.

(** Which text [_findVariableType] resolves for a declaration, and in which
    mode: the declared type itself when it is no placeholder; for a
    placeholder the right-hand side when there is one; failing that, and
    unless the placeholder is [auto], the first constructor argument. *)
Inductive resolves_declaration
  (E : Externals) (d : DecMatch) (varTypeDec : string)
  : string -> bool -> Prop :=
| declared_type :
    str_in varTypeDec placeholderTypes = false ->
    resolves_declaration E d varTypeDec varTypeDec true
| assigned_value (assignValue : string) :
    str_in varTypeDec placeholderTypes = true ->
    m_val d = Some assignValue ->
    assignValue <> "" ->
    resolves_declaration E d varTypeDec assignValue true
| constructor_argument (argsValue a0 : string) (rest : list string) :
    str_in varTypeDec placeholderTypes = true ->
    truthy (m_val d) = false ->
    varTypeDec <> "auto" ->
    m_args d = Some argsValue ->
    argsValue <> "" ->
    generateExpressionUntilChar E argsValue 0 "," "(" ")" = a0 :: rest ->
    resolves_declaration E d varTypeDec a0 false.

(** A body with two declarations of [x] followed by an [else return x;],
    the matches of the declaration pattern for [x] on it (the statement
    [else return x;] matches with the type group [else return]), and the
    sample collaborators carrying these matches. *)
Module ElseReturn.

Definition body : string :=
  "Py::Float x; Py::Long x; if (a) return y; else return x;".

Definition first_declaration : DecMatch :=
  {| m_directive := None; m_type := Some "Py::Float"; m_val := None;
     m_args := None; m_start := 0; m_end := 12 |}.

Definition later_declaration : DecMatch :=
  {| m_directive := None; m_type := Some "Py::Long"; m_val := None;
     m_args := None; m_start := 12; m_end := 24 |}.

Definition else_return : DecMatch :=
  {| m_directive := None; m_type := Some "else return"; m_val := None;
     m_args := None; m_start := 41; m_end := 56 |}.

Definition externals : Externals :=
  Build_Externals
    Sample.genFuncArgs Sample.generateExpressionUntilChar Sample.removeQuote
    Sample.getClassWithModulesFromPointer Sample.getClassName
    Sample.getModuleName Sample.parsePyBuildValues
    (fun variableName text endPos =>
       if (variableName =? "x") && (text =? body)
       then filter (fun m => Nat.leb (m_end m) endPos)
              [first_declaration; later_declaration; else_return]
       else [])
    (fun variableName text pos endpos => [])
    getInnerType_base Sample.str_UnionArgument "typing.Any"
    (fun t => RetType_eqb t AnyValue) Sample.RawRepr
    Sample.UnionArguments_imports.

End ElseReturn.

(* ===================================================================== *)
(** ** Facts about insertion-ordered sets *)
(* ===================================================================== *)

Section OrderedFacts.

Local Abbreviation mem x l := (existsb (fun y => String.eqb y x) l).

Lemma mem_In (x : string) (l : list string) : mem x l = true <-> In x l.
Proof.
  rewrite existsb_exists. split.
  - intros [y [Hy Heq]]. apply String.eqb_eq in Heq. now subst.
  - intros H. exists x. split; [assumption | apply String.eqb_refl].
Qed.

Lemma ordered_add_mem (x : string) (l : list string) :
  ordered_add String.eqb x l = if mem x l then l else l ++ [x].
Proof.
  induction l as [|y l IH]; simpl; [reflexivity|].
  destruct (String.eqb y x); simpl; [reflexivity|].
  rewrite IH. now destruct (mem x l).
Qed.

Lemma filter_filter_absorb (f g : string -> bool) (l : list string) :
  (forall y, f y = true -> g y = true) ->
  filter f (filter g l) = filter f l.
Proof.
  intros Hfg. induction l as [|y l IH]; simpl; [reflexivity|].
  destruct (g y) eqn:Hg; simpl.
  - now rewrite IH.
  - destruct (f y) eqn:Hf; [|assumption].
    apply Hfg in Hf. congruence.
Qed.

Lemma filter_not_mem_snoc (x : string) (acc l : list string) :
  filter (fun y => negb (mem y (acc ++ [x]))) l
  = filter (fun y => negb (mem y acc)) (filter (fun y => negb (y =? x)) l).
Proof.
  induction l as [|z l IHl]; simpl; [reflexivity|].
  rewrite existsb_app. simpl. rewrite orb_false_r, negb_orb.
  rewrite (String.eqb_sym x z).
  destruct (String.eqb z x); simpl.
  - rewrite andb_false_r. apply IHl.
  - rewrite andb_true_r.
    destruct (mem z acc); simpl; [apply IHl | now rewrite IHl].
Qed.

Lemma fold_ordered_add (xs acc : list string) :
  fold_left (fun a x => ordered_add String.eqb x a) xs acc
  = acc ++ filter (fun y => negb (mem y acc)) (first_seen xs).
Proof.
  revert acc. induction xs as [|x xs IH]; intros acc; simpl.
  - now rewrite app_nil_r.
  - rewrite IH, ordered_add_mem.
    destruct (mem x acc) eqn:Hx; simpl.
    + f_equal. symmetry. apply filter_filter_absorb.
      intros y Hy. destruct (String.eqb_spec y x); [subst|reflexivity].
      rewrite Hx in Hy. discriminate.
    + rewrite <- app_assoc. simpl. do 2 f_equal. apply filter_not_mem_snoc.
Qed.

Lemma ordered_of_list_first_seen (l : list string) :
  ordered_of_list String.eqb l = first_seen l.
Proof.
  unfold ordered_of_list. rewrite fold_ordered_add. simpl.
  induction (first_seen l) as [|y l' IH]; simpl; congruence.
Qed.

Lemma first_seen_In (x : string) (l : list string) :
  In x (first_seen l) <-> In x l.
Proof.
  induction l as [|y l IH]; simpl; [tauto|].
  rewrite filter_In, IH. split.
  - intros [H | [H _]]; auto.
  - intros [H | H]; [auto|].
    destruct (String.eqb_spec x y); [subst; auto|].
    right. split; [assumption | reflexivity].
Qed.

Lemma first_seen_NoDup (l : list string) : NoDup (first_seen l).
Proof.
  induction l as [|y l IH]; simpl; constructor.
  - rewrite filter_In. intros [_ H].
    rewrite String.eqb_refl in H. discriminate.
  - now apply NoDup_filter.
Qed.

Lemma setitem_keys (k : string) (d : Method.KeyDict) :
  Method.keys (Method.setitem k d) = ordered_add String.eqb k (Method.keys d).
Proof.
  induction d as [|[k' v] d IH]; simpl; [reflexivity|].
  destruct (String.eqb k' k); simpl; [reflexivity|].
  f_equal. apply IH.
Qed.

Lemma fromkeys_keys (ks : list string) :
  Method.keys (Method.fromkeys ks) = ordered_of_list String.eqb ks.
Proof.
  unfold Method.fromkeys, ordered_of_list.
  change (@nil string) with (Method.keys []) at 1.
  generalize (@nil (string * unit)) as d.
  induction ks as [|k ks IH]; intros d; simpl; [reflexivity|].
  rewrite IH, setitem_keys. reflexivity.
Qed.

End OrderedFacts.

(* ===================================================================== *)
(** ** The overload set of [genMethod] *)
(* ===================================================================== *)

(** C9.  The list of signatures [genMethod] renders is the list of the
    canonical strings of all candidates, deduplicated first-seen-wins: it is
    exactly the list obtained by keeping each string at its first occurrence
    and dropping every later repetition.  Hence it has no repetition, and a
    string is in it precisely when it renders some candidate. *)
Theorem genMethod_signatures_first_seen_wins
  (Signature : Type) (str : Signature -> string)
  (allSignatures : list Signature) :
  let signatures := Method.genMethod_signatures Signature str allSignatures in
  signatures = first_seen (map str allSignatures)
  /\ NoDup signatures
  /\ (forall r, In r signatures <->
                exists sig, In sig allSignatures /\ str sig = r).
Proof.
  cbv zeta. unfold Method.genMethod_signatures.
  rewrite fromkeys_keys, ordered_of_list_first_seen.
  split; [reflexivity|]. split; [apply first_seen_NoDup|].
  intros r. rewrite first_seen_In, in_map_iff.
  split; intros [sig [H1 H2]]; exists sig; auto.
Qed.

(* ===================================================================== *)
(** ** Sentinel literals *)
(* ===================================================================== *)

(** C2.  For each of the sentinel fragments [0], [-1], [NULL], [nullptr] and
    [0L], [getExpressionType] raises [InvalidReturnType] when called with
    [onlyLiteral=False] and returns [AnyValue] when called with
    [onlyLiteral=True]; the required imports are left as they were. *)
Theorem sentinel_raises_unless_onlyLiteral
  (E : Externals) (self : Self) (fuel endPos : nat) (s : OrderedStrSet)
  (fragment : string) :
  In fragment ["0"; "-1"; "NULL"; "nullptr"; "0L"] ->
  getExpressionType E self (S fuel) fragment endPos false s
    = (Raise InvalidReturnType, s)
  /\ getExpressionType E self (S fuel) fragment endPos true s
    = (Ok AnyValue, s).
Proof.
  intros H. simpl in H.
  repeat (destruct H as [<- | H]; [split; reflexivity|]).
  contradiction.
Qed.

Lemma sentinel_raises_unless_onlyLiteral_witness :
  getExpressionType Sample.externals (Sample.converter "return NULL;" "")
    1 "NULL" 12 false []
    = (Raise InvalidReturnType, [])
  /\ getExpressionType Sample.externals (Sample.converter "return NULL;" "")
    1 "NULL" 12 true []
    = (Ok AnyValue, []).
Proof.
  apply (sentinel_raises_unless_onlyLiteral
           Sample.externals (Sample.converter "return NULL;" "") 0 12 [] "NULL").
  simpl. tauto.
Defined.

(* ===================================================================== *)
(** ** The class registry lookup [_findClassWithModule] *)
(* ===================================================================== *)

(** C5.  When the class a construction expression resolves to is the class
    being generated, [_findClassWithModule] returns the module-qualified
    name of the current class and leaves [requiredImports] as it was. *)
Theorem self_reference_records_no_import
  (E : Externals) (self : Self) (text mustDiffer : string)
  (requiredImports : OrderedStrSet) :
  resolvedClass E text = className E self ->
  _findClassWithModule E self text mustDiffer requiredImports
    = (Ok (TStr (classNameWithModule self)), requiredImports).
Proof.
  unfold resolvedClass, _findClassWithModule. intros ->.
  now rewrite String.eqb_refl.
Qed.

Lemma self_reference_records_no_import_witness :
  _findClassWithModule Sample.externals (Sample.converter "" "FreeCAD.Vector")
    "new VectorPy(v)" "" ["Part"]
    = (Ok (TStr "FreeCAD.Vector"), ["Part"]).
Proof.
  apply (self_reference_records_no_import
           Sample.externals (Sample.converter "" "FreeCAD.Vector")
           "new VectorPy(v)" "" ["Part"]).
  reflexivity.
Defined.

(** Seen from [getExpressionType]: constructing the class being generated
    records nothing, constructing a class of another module records that
    module. *)
Example construction_imports :
  getExpressionType Sample.externals (Sample.converter "" "FreeCAD.Vector") 1
    "new VectorPy(v)" 0 false []
  = (Ok (TStr "FreeCAD.Vector"), [])
  /\ getExpressionType Sample.externals (Sample.converter "" "FreeCAD.Vector") 1
       "new MeshPy(m)" 0 false []
     = (Ok (TStr "Mesh.Mesh"), ["Mesh"]).
Proof. split; reflexivity. Qed.

(** C6, as the code has it.  When a construction expression resolves to
    [PropertyComplexGeoData] and the class being generated is not itself
    named [PropertyComplexGeoData], the result is the union of exactly
    [Mesh.MeshObject], [Part.Shape] and [Points.PointKernel], in this order,
    and no import is recorded. *)
Theorem PropertyComplexGeoData_is_three_way_union
  (E : Externals) (self : Self) (text mustDiffer : string)
  (requiredImports : OrderedStrSet) :
  resolvedClass E text = "PropertyComplexGeoData" ->
  className E self <> "PropertyComplexGeoData" ->
  _findClassWithModule E self text mustDiffer requiredImports
    = (Ok geometryUnion, requiredImports).
Proof.
  unfold resolvedClass, _findClassWithModule. intros -> Hself.
  apply not_eq_sym, String.eqb_neq in Hself. rewrite Hself.
  reflexivity.
Qed.

Lemma PropertyComplexGeoData_is_three_way_union_witness :
  _findClassWithModule Sample.externals (Sample.converter "" "FreeCAD.Vector")
    "new PropertyComplexGeoDataPy(p)" "" []
    = (Ok geometryUnion, []).
Proof.
  apply (PropertyComplexGeoData_is_three_way_union
           Sample.externals (Sample.converter "" "FreeCAD.Vector")
           "new PropertyComplexGeoDataPy(p)" "" []).
  - reflexivity.
  - unfold className. simpl. discriminate.
Defined.

(** C6 as stated fails: while [PropertyComplexGeoData] itself is being
    generated, an expression that resolves to that class is answered by the
    self-reference case, which comes first, with the single qualified name
    of the current class. *)
Lemma PropertyComplexGeoData_self_reference_is_not_union :
  let self := Sample.converter "" "FreeCAD.PropertyComplexGeoData" in
  let text := "new PropertyComplexGeoDataPy(p)" in
  resolvedClass Sample.externals text = "PropertyComplexGeoData"
  /\ _findClassWithModule Sample.externals self text "" []
     = (Ok (TStr "FreeCAD.PropertyComplexGeoData"), [])
  /\ fst (_findClassWithModule Sample.externals self text "" [])
     <> Ok geometryUnion.
Proof.
  cbv zeta. split; [reflexivity|]. split; [reflexivity|].
  simpl. discriminate.
Qed.

(* ===================================================================== *)
(** ** The return-type enumeration loop *)
(* ===================================================================== *)

Section ReturnLoop.

Variable E : Externals.
Variable self : Self.
Variable fuel : nat.

Lemma bind_ret_r {A : Type} (m : M A) (s : OrderedStrSet) :
  bind m (fun x => ret x) s = m s.
Proof.
  unfold bind, ret. destruct (m s) as [[a | e |] s']; reflexivity.
Qed.

Lemma _genReturnType_step_catches (m : string * nat) (s : OrderedStrSet) :
  fst (_genReturnType_step E self fuel m s) <> Raise InvalidReturnType.
Proof.
  unfold _genReturnType_step, try_except_InvalidReturnType, bind, ret.
  destruct (getExpressionType E self fuel (fst m) (snd m) false s)
    as [[[t | u |] | [] |] s']; simpl; discriminate.
Qed.

Lemma _genReturnType_items_catches
  (matches : list (string * nat)) (s : OrderedStrSet) :
  fst (_genReturnType_items E self fuel matches s) <> Raise InvalidReturnType.
Proof.
  revert s. induction matches as [|m rest IH]; intros s; simpl.
  - discriminate.
  - unfold bind at 1.
    pose proof (_genReturnType_step_catches m s) as Hstep.
    destruct (_genReturnType_step E self fuel m s) as [[y | e |] s1]; simpl in *.
    + unfold bind, ret. specialize (IH s1).
      destruct (_genReturnType_items E self fuel rest s1) as [[l | e |] s2];
        simpl in *; [discriminate | assumption | discriminate].
    + assumption.
    + discriminate.
Qed.

Lemma _genReturnType_catches (s : OrderedStrSet) :
  fst (_genReturnType E self fuel s) <> Raise InvalidReturnType.
Proof.
  unfold _genReturnType, generator.
  pose proof (_genReturnType_items_catches
                (REG_RETURN_finditer (functionBody self)) s) as H.
  destruct (_genReturnType_items E self fuel
              (REG_RETURN_finditer (functionBody self)) s)
    as [[l | [] |] s1]; simpl in *; congruence.
Qed.

Lemma getReturnType_catches (s : OrderedStrSet) :
  fst (getReturnType E self fuel s) <> Raise InvalidReturnType.
Proof.
  unfold getReturnType, bind, requiredImports_update, ret.
  pose proof (_genReturnType_catches s) as H.
  destruct (_genReturnType E self fuel s) as [[l | e |] s1]; simpl in *;
    [discriminate | | discriminate].
  intros Heq. apply H. injection Heq as ->. reflexivity.
Qed.

Lemma _genReturnType_step_skips (m : string * nat) (s s' : OrderedStrSet) :
  getExpressionType E self fuel (fst m) (snd m) false s
    = (Raise InvalidReturnType, s') ->
  _genReturnType_step E self fuel m s = (Ok [], s').
Proof.
  intros H. unfold _genReturnType_step, try_except_InvalidReturnType, bind.
  now rewrite H.
Qed.

Lemma _genReturnType_items_all_skipped
  (matches : list (string * nat)) :
  Forall (fun m => forall s1, exists s2,
            getExpressionType E self fuel (fst m) (snd m) false s1
              = (Raise InvalidReturnType, s2)) matches ->
  forall s, exists s', _genReturnType_items E self fuel matches s = (Ok [], s').
Proof.
  induction 1 as [|m rest Hm _ IH]; intros s; simpl.
  - exists s. reflexivity.
  - destruct (Hm s) as [s1 H1]. destruct (IH s1) as [s2 H2].
    exists s2. unfold bind at 1.
    rewrite (_genReturnType_step_skips m s s1 H1).
    unfold bind, ret. now rewrite H2.
Qed.

End ReturnLoop.

(** C3.  [InvalidReturnType] never leaves [getReturnType] (nor the generator
    [_genReturnType]); and a return statement whose resolution raises it
    yields no type, after which the loop goes on with the remaining return
    statements, from the required imports the failed resolution left. *)
Theorem InvalidReturnType_is_caught_and_skipped
  (E : Externals) (self : Self) (fuel : nat) :
  (forall s, fst (getReturnType E self fuel s) <> Raise InvalidReturnType)
  /\ (forall s, fst (_genReturnType E self fuel s) <> Raise InvalidReturnType)
  /\ (forall (m : string * nat) (rest : list (string * nat)) s s',
        getExpressionType E self fuel (fst m) (snd m) false s
          = (Raise InvalidReturnType, s') ->
        _genReturnType_step E self fuel m s = (Ok [], s')
        /\ _genReturnType_items E self fuel (m :: rest) s
           = _genReturnType_items E self fuel rest s').
Proof.
  split; [apply getReturnType_catches|].
  split; [apply _genReturnType_catches|].
  intros m rest s s' H.
  pose proof (_genReturnType_step_skips E self fuel m s s' H) as Hstep.
  split; [assumption|].
  simpl. unfold bind at 1. rewrite Hstep.
  change (fun later : list RetType => ret ([] ++ later))
    with (fun later : list RetType => ret later).
  apply bind_ret_r.
Qed.

Lemma InvalidReturnType_is_caught_and_skipped_witness :
  let E := Sample.externals in
  let self := Sample.converter "if (!p) return NULL; return Py::Float(v);" "" in
  REG_RETURN_finditer (functionBody self)
    = [("NULL", 20); ("Py::Float(v)", 41)]
  /\ _genReturnType_items E self 2 [("NULL", 20); ("Py::Float(v)", 41)] []
     = _genReturnType_items E self 2 [("Py::Float(v)", 41)] []
  /\ getStrReturnType E self 2 [] = (Ok "float", []).
Proof.
  cbv zeta. split; [reflexivity|]. split; [|reflexivity].
  apply (proj2 (proj2 (InvalidReturnType_is_caught_and_skipped
                         Sample.externals
                         (Sample.converter
                            "if (!p) return NULL; return Py::Float(v);" "")
                         2))
           ("NULL", 20) [("Py::Float(v)", 41)] [] []).
  reflexivity.
Defined.

(** C10.  When every return statement of the function body is skipped (its
    resolution raises [InvalidReturnType]) or there is none, so that no type
    is inferred, and the annotation built from no type at all is the empty
    one, [getStrReturnType] returns the string [object]. *)
Theorem getStrReturnType_defaults_to_object
  (E : Externals) (self : Self) (fuel : nat) (s : OrderedStrSet) :
  RawRepr E [] = None ->
  Forall (fun m => forall s1, exists s2,
            getExpressionType E self fuel (fst m) (snd m) false s1
              = (Raise InvalidReturnType, s2))
         (REG_RETURN_finditer (functionBody self)) ->
  exists s', getStrReturnType E self fuel s = (Ok "object", s').
Proof.
  intros Hempty Hall.
  destruct (_genReturnType_items_all_skipped E self fuel _ Hall s) as [s1 H1].
  unfold getStrReturnType, getReturnType, _genReturnType, generator.
  unfold bind at 1 2. rewrite H1.
  unfold bind, requiredImports_update, ret. simpl.
  change (ordered_of_list RetType_eqb []) with (@nil RetType).
  rewrite Hempty. eexists. reflexivity.
Qed.

Lemma getStrReturnType_defaults_to_object_witness :
  exists s',
    getStrReturnType Sample.externals
      (Sample.converter "if (!p) return NULL; return nullptr;" "") 1 ["Part"]
    = (Ok "object", s').
Proof.
  apply (getStrReturnType_defaults_to_object
           Sample.externals
           (Sample.converter "if (!p) return NULL; return nullptr;" "")
           1 ["Part"]).
  - reflexivity.
  - change (REG_RETURN_finditer
              (functionBody
                 (Sample.converter "if (!p) return NULL; return nullptr;" "")))
      with [("NULL", 20); ("nullptr", 36)].
    apply Forall_cons; [intros s1; exists s1; reflexivity|].
    apply Forall_cons; [intros s1; exists s1; reflexivity|].
    apply Forall_nil.
Defined.

(* ===================================================================== *)
(** ** The variable-type search *)
(* ===================================================================== *)

Lemma ordered_add_In (x y : string) (l : list string) :
  In y (ordered_add String.eqb x l) <-> y = x \/ In y l.
Proof.
  rewrite ordered_add_mem.
  destruct (existsb (fun z => z =? x) l) eqn:Hx.
  - apply mem_In in Hx. split; [tauto|]. intros [-> | H]; assumption.
  - rewrite in_app_iff. simpl. intuition.
Qed.

Lemma ordered_add_NoDup (x : string) (l : list string) :
  NoDup l -> NoDup (ordered_add String.eqb x l).
Proof.
  intros Hl. rewrite ordered_add_mem.
  destruct (existsb (fun z => z =? x) l) eqn:Hx; [assumption|].
  apply NoDup_app; [assumption | repeat constructor; intros [] |].
  intros a Ha [<- | []].
  apply mem_In in Ha. congruence.
Qed.

Section VariableSearch.

Variable E : Externals.
Variable self : Self.
Variable getExpressionType_self : string -> nat -> bool -> M RetType.

Lemma _findVariableType_loop_skips
  (variableName : string) (endPos : nat) (later rest : list DecMatch) :
  Forall (fun m => skipped m = true) later ->
  _findVariableType_loop E self getExpressionType_self variableName endPos
    (later ++ rest)
  = _findVariableType_loop E self getExpressionType_self variableName endPos
      rest.
Proof.
  induction 1 as [|m later Hm _ IH]; simpl; [reflexivity|].
  unfold skipped in Hm.
  destruct (truthy (m_directive m)); [exact IH|].
  destruct (_extractTypeFromMatch m) as [t|]; [|exact IH].
  simpl in Hm. destruct (t =? ""); [exact IH | discriminate].
Qed.

Lemma _findVariableType_loop_uses
  (variableName : string) (endPos : nat) (m : DecMatch)
  (rest : list DecMatch) :
  skipped m = false ->
  exists varTypeDec,
    _extractTypeFromMatch m = Some varTypeDec
    /\ varTypeDec <> ""
    /\ _findVariableType_loop E self getExpressionType_self variableName endPos
         (m :: rest)
       = _findVariableType_body E self getExpressionType_self variableName
           endPos m varTypeDec.
Proof.
  unfold skipped. intros Hm. simpl.
  destruct (truthy (m_directive m)); [discriminate|].
  destruct (_extractTypeFromMatch m) as [t|]; [|discriminate].
  exists t. simpl in Hm.
  destruct (String.eqb_spec t ""); [discriminate|].
  repeat split; assumption || reflexivity.
Qed.

End VariableSearch.




(** The later of the two declarations of the sample body decides: [x] is
    an [int] (from [Py::Long]), not a [float] (from [Py::Float]). *)
Example later_declaration_decides :
  getExpressionType Sample.externals
    (Sample.converter Sample.body_two_declarations "") 3 "x" 34 false []
  = (Ok (TStr "int"), []).
Proof. reflexivity. Qed.

(** C8.  A union built from an iterable keeps each member at its first
    occurrence and drops later repetitions, so that the union of [A, B, A]
    is [A, B].  And when the declaration of a variable resolves to [None]
    and the assignments that follow it yield types, the search returns the
    union of those types with [None] added to it: every assigned type is a
    member, [None] is a member, and nothing else is. *)
Theorem None_is_folded_into_the_union
  (E : Externals) (self : Self)
  (getExpressionType_self : string -> nat -> bool -> M RetType)
  (variableName : string) (endPos : nat)
  (declaration : DecMatch) (varTypeDec : string)
  (s s1 s2 : OrderedStrSet) (assigned : list string) :
  _findVariableType_declared E getExpressionType_self endPos
      declaration varTypeDec s
    = (Ok (TStr "None"), s1) ->
  _genVariableTypeFromRegex self getExpressionType_self
      (assignmentReg E variableName) (m_end declaration) endPos false s1
    = (Ok assigned, s2) ->
  assigned <> [] ->
  (forall members, UnionArgument_init members = first_seen members)
  /\ (forall A B, A <> B -> UnionArgument_init [A; B; A] = [A; B])
  /\ exists union,
       _findVariableType_body E self getExpressionType_self variableName
           endPos declaration varTypeDec s
         = (Ok (TUnion union), s2)
       /\ union = UnionArgument_add "None" (UnionArgument_init assigned)
       /\ NoDup union
       /\ (forall t, In t union <-> t = "None" \/ In t assigned).
Proof.
  intros Hdecl Hgen Hne.
  split; [exact ordered_of_list_first_seen|].
  split.
  { intros A B HAB. unfold UnionArgument_init.
    rewrite ordered_of_list_first_seen.
    assert (HBA : (B =? A) = false) by now apply String.eqb_neq, not_eq_sym.
    apply String.eqb_neq in HAB.
    simpl. rewrite HAB. simpl. rewrite HBA. simpl.
    now rewrite String.eqb_refl. }
  exists (UnionArgument_add "None" (UnionArgument_init assigned)).
  split; [|split; [reflexivity|split]].
  - unfold _findVariableType_body, bind at 1. rewrite Hdecl.
    cbn [RetType_eqb String.eqb Ascii.eqb Bool.eqb orb].
    unfold _getRetTypeFromAssignment, bind at 1 2 3. rewrite Hgen.
    destruct (UnionArgument_init assigned) as [|t u] eqn:Hu.
    + exfalso. destruct assigned as [|a l]; [now apply Hne|].
      unfold UnionArgument_init in Hu.
      rewrite ordered_of_list_first_seen in Hu. discriminate.
    + reflexivity.
  - unfold UnionArgument_add, UnionArgument_init.
    apply ordered_add_NoDup. rewrite ordered_of_list_first_seen.
    apply first_seen_NoDup.
  - intros t. unfold UnionArgument_add, UnionArgument_init.
    rewrite ordered_add_In, ordered_of_list_first_seen, first_seen_In.
    reflexivity.
Qed.

Lemma None_is_folded_into_the_union_witness :
  let self := Sample.converter Sample.body_none_then_assigned "" in
  let resolver := getExpressionType Sample.externals self 2 in
  let declaration :=
    nth 0 Sample.matches_none_then_assigned
      (Build_DecMatch None None None None 0 0) in
  (forall members, UnionArgument_init members = first_seen members)
  /\ (forall A B, A <> B -> UnionArgument_init [A; B; A] = [A; B])
  /\ exists union,
       _findVariableType_body Sample.externals self resolver "res" 77
           declaration "PyObject" []
         = (Ok (TUnion union), [])
       /\ union = UnionArgument_add "None"
                    (UnionArgument_init ["float"; "str"])
       /\ NoDup union
       /\ (forall t, In t union <-> t = "None" \/ In t ["float"; "str"]).
Proof.
  cbv zeta.
  apply (None_is_folded_into_the_union
           Sample.externals
           (Sample.converter Sample.body_none_then_assigned "")
           (getExpressionType Sample.externals
              (Sample.converter Sample.body_none_then_assigned "") 2)
           "res" 77
           (nth 0 Sample.matches_none_then_assigned
              (Build_DecMatch None None None None 0 0))
           "PyObject" [] [] [] ["float"; "str"]).
  - reflexivity.
  - reflexivity.
  - discriminate.
Defined.

(** On the sample body the declared [None] and the two assigned types end
    up in one union. *)
Example None_joins_assigned_types :
  getExpressionType Sample.externals
    (Sample.converter Sample.body_none_then_assigned "") 3 "res" 77 false []
  = (Ok (TUnion ["float"; "str"; "None"]), []).
Proof. reflexivity. Qed.

(* ===================================================================== *)
(** ** The resolver chain of [getExpressionType] *)
(* ===================================================================== *)

Section Chain.

Lemma silent_found (t : RetType) : silent (found t).
Proof. intros s s' H. discriminate H. Qed.

Lemma silent_no_match : silent no_match.
Proof. intros s s' H. now injection H. Qed.

Lemma silent_raise (e : exn) : silent (raise e).
Proof. intros s s' H. discriminate H. Qed.

Lemma silent_returning (m : M RetType) : silent (returning m).
Proof.
  intros s s'. unfold returning, bind, ret.
  destruct (m s) as [[t | e |] s1]; discriminate.
Qed.

Lemma silent_bind_found {A : Type} (m : M A) (f : A -> RetType) :
  silent (bind m (fun x => found (f x))).
Proof.
  intros s s'. unfold bind, found, ret.
  destruct (m s) as [[t | e |] s1]; discriminate.
Qed.

Ltac silent_cases :=
  repeat first
    [ apply silent_found
    | apply silent_no_match
    | apply silent_raise
    | apply silent_returning
    | apply silent_bind_found
    | match goal with
      | |- silent (if ?b then _ else _) => destruct b
      | |- silent (match ?x with _ => _ end) => destruct x
      end ].

Variable E : Externals.
Variable self : Self.
Variable getExpressionType_self : string -> nat -> bool -> M RetType.

Lemma resolvers_silent
  (method : string -> nat -> bool -> M (option RetType))
  (sw : string) (endPos : nat) (onlyLiteral : bool) :
  In method (resolvers E self getExpressionType_self) ->
  silent (method sw endPos onlyLiteral).
Proof.
  unfold resolvers. simpl.
  intros [<- | [<- | [<- | [<- | [<- | [<- | [<- | []]]]]]]].
  - unfold _matchLiterals. silent_cases.
  - unfold _matchPyType. silent_cases.
  - unfold _matchSpecial. silent_cases.
  - unfold _matchQt. silent_cases.
  - unfold _matchMethodCall. cbv zeta. silent_cases.
  - unfold _matchFreeCAD. cbv zeta. silent_cases.
  - unfold _matchFinalPossibilities. cbv zeta. silent_cases.
Qed.

Lemma dispatch_first_non_null
  (before after : list (string -> nat -> bool -> M (option RetType)))
  (method : string -> nat -> bool -> M (option RetType))
  (sw : string) (endPos : nat) (onlyLiteral : bool)
  (s s' : OrderedStrSet) (t : RetType) :
  Forall (fun earlier => earlier sw endPos onlyLiteral s = (Ok None, s)) before ->
  method sw endPos onlyLiteral s = (Ok (Some t), s') ->
  dispatch (before ++ method :: after) sw endPos onlyLiteral s = (Ok t, s').
Proof.
  intros Hbefore Hmethod.
  induction Hbefore as [|earlier before Hearlier _ IH]; simpl.
  - unfold bind. now rewrite Hmethod.
  - unfold bind. now rewrite Hearlier.
Qed.

End Chain.

(** C1, as the code has it.  [getExpressionType] normalises the fragment
    and tries, in this order, the literal rules, the foreign-object-builder
    rules, the two application-object rules of [_matchSpecial], the
    GUI-toolkit wrapper rules, the method-call rules, the domain-object
    table of [_matchFreeCAD] and the fallback; the first of them that
    returns a result other than [None] determines the resolved type (the
    ones before it leave the required imports untouched). *)
Theorem getExpressionType_first_resolver_wins
  (E : Externals) (self : Self) (fuel : nat)
  (varText : string) (endPos : nat) (onlyLiteral : bool)
  (before after : list (string -> nat -> bool -> M (option RetType)))
  (method : string -> nat -> bool -> M (option RetType))
  (s s' : OrderedStrSet) (t : RetType) :
  let resolver := getExpressionType E self fuel in
  let sw := _removeSuffix (_removePrefixes varText) in
  [ _matchLiterals;
    _matchPyType E resolver;
    _matchSpecial;
    _matchQt E;
    _matchMethodCall E self resolver;
    _matchFreeCAD E resolver;
    _matchFinalPossibilities E self resolver ] = before ++ method :: after ->
  Forall (fun earlier =>
            exists s1, earlier sw endPos onlyLiteral s = (Ok None, s1)) before ->
  method sw endPos onlyLiteral s = (Ok (Some t), s') ->
  getExpressionType E self (S fuel) varText endPos onlyLiteral s = (Ok t, s').
Proof.
  intros resolver sw Hchain Hbefore Hmethod.
  simpl. unfold getExpressionType_body. fold resolver sw.
  change (resolvers E self resolver) with
    [ _matchLiterals; _matchPyType E resolver; _matchSpecial; _matchQt E;
      _matchMethodCall E self resolver; _matchFreeCAD E resolver;
      _matchFinalPossibilities E self resolver ].
  assert (Hin : forall m, In m before -> In m (resolvers E self resolver)).
  { intros m Hm. unfold resolvers. rewrite Hchain.
    apply in_or_app. now left. }
  rewrite Hchain. apply dispatch_first_non_null; [|assumption].
  rewrite Forall_forall in *. intros m Hm.
  destruct (Hbefore m Hm) as [s1 H1].
  rewrite H1. f_equal.
  exact (resolvers_silent E self resolver m sw endPos onlyLiteral
           (Hin m Hm) s s1 H1).
Qed.

Lemma getExpressionType_first_resolver_wins_witness :
  getExpressionType Sample.externals (Sample.converter "" "") 1
    "Py::Vector(v)->c_str()" 0 false []
  = (Ok (TStr "str"), []).
Proof.
  apply (getExpressionType_first_resolver_wins
           Sample.externals (Sample.converter "" "") 0
           "Py::Vector(v)->c_str()" 0 false
           [ _matchLiterals;
             _matchPyType Sample.externals
               (getExpressionType Sample.externals (Sample.converter "" "") 0);
             _matchSpecial;
             _matchQt Sample.externals ]
           [ _matchFreeCAD Sample.externals
               (getExpressionType Sample.externals (Sample.converter "" "") 0);
             _matchFinalPossibilities Sample.externals (Sample.converter "" "")
               (getExpressionType Sample.externals (Sample.converter "" "") 0) ]
           (_matchMethodCall Sample.externals (Sample.converter "" "")
              (getExpressionType Sample.externals (Sample.converter "" "") 0))
           [] [] (TStr "str")).
  - reflexivity.
  - repeat (apply Forall_cons; [exists []; reflexivity|]). apply Forall_nil.
  - reflexivity.
Defined.

(** C1 as stated fails: on [Py::Vector(v)->c_str()] the domain-object rule
    for [Py::Vector] answers [FreeCAD.Vector], and a chain that tried the
    domain-object rules before the method-call rules would return it; the
    code tries the method-call rules first and returns [str]. *)
Lemma method_call_rules_precede_domain_object_rules :
  let E := Sample.externals in
  let self := Sample.converter "" "" in
  let fragment := "Py::Vector(v)->c_str()" in
  _matchFreeCAD E (getExpressionType E self 0) fragment 0 false []
    = (Ok (Some (TStr "FreeCAD.Vector")), [])
  /\ getExpressionType_in_spec_order E self 1 fragment 0 false []
     = (Ok (TStr "FreeCAD.Vector"), [])
  /\ getExpressionType E self 1 fragment 0 false [] = (Ok (TStr "str"), [])
  /\ getExpressionType E self 1 fragment 0 false []
     <> getExpressionType_in_spec_order E self 1 fragment 0 false [].
Proof.
  cbv zeta. repeat split; try reflexivity.
  vm_compute. discriminate.
Qed.

(* ===================================================================== *)
(** ** [PyTuple_Pack] *)
(* ===================================================================== *)

Section PrefixFacts.

Lemma prefix_comparable (s p q : string) :
  String.prefix p s = true -> String.prefix q s = true ->
  String.prefix p q = true \/ String.prefix q p = true.
Proof.
  revert p q. induction s as [|c s IH]; intros p q Hp Hq.
  - destruct p; [|discriminate]. destruct q; [|discriminate]. now left.
  - destruct p as [|a p]; [left; now destruct q|].
    destruct q as [|b q]; [now right|].
    simpl in *.
    destruct (ascii_dec a c) as [->|]; [|discriminate].
    destruct (ascii_dec b c) as [->|]; [|discriminate].
    destruct (ascii_dec c c) as [_|n]; [|now elim n].
    now apply IH.
Qed.

Lemma startswith_excludes (s p q : string) :
  startswith s p = true ->
  String.prefix p q = false -> String.prefix q p = false ->
  startswith s q = false.
Proof.
  unfold startswith. intros Hp Hpq Hqp.
  destruct (String.prefix q s) eqn:Hq; [|reflexivity].
  destruct (prefix_comparable s p q Hp Hq); congruence.
Qed.

Lemma start_excluded (s p : string) (alts : list string) :
  startswith s p = true ->
  forallb (fun q => negb (String.prefix p q) && negb (String.prefix q p)) alts
    = true ->
  StrWrapper.start s alts = false.
Proof.
  intros Hp. unfold StrWrapper.start.
  induction alts as [|q alts IH]; simpl; [reflexivity|].
  rewrite andb_true_iff, andb_true_iff, !negb_true_iff.
  intros [[Hpq Hqp] Hrest].
  now rewrite (startswith_excludes s p q Hp Hpq Hqp), IH.
Qed.

Lemma eqb_excluded (s p q : string) :
  startswith s p = true -> String.prefix p q = false -> (s =? q) = false.
Proof.
  unfold startswith. intros Hp Hpq.
  destruct (String.eqb_spec s q) as [->|]; congruence.
Qed.

Lemma str_in_excluded (s p : string) (alts : list string) :
  startswith s p = true ->
  forallb (fun q => negb (String.prefix p q)) alts = true ->
  str_in s alts = false.
Proof.
  intros Hp. unfold str_in.
  induction alts as [|q alts IH]; simpl; [reflexivity|].
  rewrite andb_true_iff, negb_true_iff. intros [Hpq Hrest].
  now rewrite (eqb_excluded s p q Hp Hpq), IH.
Qed.

End PrefixFacts.

Section ListComprehension.

Lemma mapM_fmap {A B C : Type} (g : A -> M B) (h : B -> C) (xs : list A)
  (s : OrderedStrSet) :
  mapM (fun v => bind (g v) (fun t => ret (h t))) xs s
  = bind (mapM g xs) (fun ts => ret (map h ts)) s.
Proof.
  revert s. induction xs as [|x xs IH]; intros s; simpl; [reflexivity|].
  unfold bind, ret in *.
  destruct (g x s) as [[t | e |] s1]; try reflexivity.
  rewrite IH.
  destruct (mapM g xs s1) as [[ts | e |] s2]; reflexivity.
Qed.

Lemma mapM_total {A B : Type} (g : A -> M B) (xs : list A) :
  (forall v s1, In v xs -> exists t s2, g v s1 = (Ok t, s2)) ->
  forall s, exists ts s',
    mapM g xs s = (Ok ts, s')
    /\ Forall2 (fun v t => exists s1 s2, g v s1 = (Ok t, s2)) xs ts.
Proof.
  induction xs as [|x xs IH]; intros Hall s; simpl.
  - exists [], s. split; [reflexivity | constructor].
  - destruct (Hall x s (or_introl eq_refl)) as [t [s1 Ht]].
    destruct (IH (fun v s0 Hv => Hall v s0 (or_intror Hv)) s1)
      as [ts [s2 [Hts HF]]].
    exists (t :: ts), s2. split.
    + unfold bind, ret. now rewrite Ht, Hts.
    + constructor; [now exists s, s1 | assumption].
Qed.

End ListComprehension.

(** C4, as the code has it.  A fragment that, once normalised, starts with
    [PyTuple_Pack], mentions neither [Py_True] nor [Py_False], and whose
    packed sub-expressions (the arguments after the leading count) each
    resolve to a type, resolves to the text of a parametrized tuple type
    whose inner types are the resolutions of the sub-expressions, one for
    each, in argument order. *)
Theorem PyTuple_Pack_resolves_to_tuple
  (E : Externals) (self : Self) (fuel : nat)
  (varText : string) (endPos : nat) (onlyLiteral : bool) (s : OrderedStrSet) :
  let sw := _removeSuffix (_removePrefixes varText) in
  let packed := tl (genFuncArgs E sw) in
  startswith sw "PyTuple_Pack" = true ->
  PyStr.contain sw "Py_True" = false ->
  PyStr.contain sw "Py_False" = false ->
  (forall v s1, In v packed ->
     exists t s2, getExpressionType E self fuel v endPos false s1 = (Ok t, s2)) ->
  exists inner s',
    getExpressionType E self (S fuel) varText endPos onlyLiteral s
      = (Ok (TStr (tuple_of (map (str_RetType E) inner))), s')
    /\ length inner = length packed
    /\ Forall2 (fun v t => exists s1 s2,
                  getExpressionType E self fuel v endPos false s1 = (Ok t, s2))
               packed inner.
Proof.
  intros sw packed Hstart HTrue HFalse Hpacked.
  destruct (mapM_total
              (fun v => getExpressionType E self fuel v endPos false)
              packed Hpacked s) as [inner [s' [Hmap HF]]].
  exists inner, s'. split; [|split; [|assumption]].
  2: { symmetry. eapply Forall2_length. eassumption. }
  change (getExpressionType E self (S fuel) varText endPos onlyLiteral)
    with (getExpressionType_body E self (getExpressionType E self fuel)
            varText endPos onlyLiteral).
  unfold getExpressionType_body. fold sw. clearbody sw.
  unfold resolvers. cbn [dispatch].
  assert (Hlit : _matchLiterals sw endPos onlyLiteral = no_match).
  { unfold _matchLiterals.
    rewrite (eqb_excluded sw _ "" Hstart) by reflexivity.
    rewrite (str_in_excluded sw _ _ Hstart) by reflexivity.
    reflexivity. }
  unfold bind at 1. rewrite Hlit. unfold no_match, ret at 1.
  unfold bind at 1, _matchPyType.
  rewrite (eqb_excluded sw _ "Py::Object()" Hstart) by reflexivity.
  rewrite (str_in_excluded sw _ _ Hstart) by reflexivity.
  repeat match goal with
         | |- context [StrWrapper.start sw ?alts] =>
             rewrite (start_excluded sw _ alts Hstart) by reflexivity
         end.
  assert (Hcontain : StrWrapper.contain sw ["Py_True"; "Py_False"] = false).
  { unfold StrWrapper.contain. simpl. now rewrite HTrue, HFalse. }
  rewrite Hcontain.
  assert (Hpack : StrWrapper.start sw ["PyTuple_Pack"] = true).
  { unfold StrWrapper.start. simpl. now rewrite Hstart. }
  rewrite Hpack. fold packed.
  unfold bind at 1. rewrite mapM_fmap.
  unfold bind at 1. rewrite Hmap. reflexivity.
Qed.

Lemma PyTuple_Pack_resolves_to_tuple_witness :
  exists inner s',
    getExpressionType Sample.externals (Sample.converter "" "") 2
      "PyTuple_Pack(2, PyFloat_FromDouble(a), PyFloat_FromDouble(b))" 0 false []
      = (Ok (TStr (tuple_of (map (str_RetType Sample.externals) inner))), s')
    /\ length inner = 2
    /\ Forall2 (fun v t => exists s1 s2,
                  getExpressionType Sample.externals (Sample.converter "" "") 1
                    v 0 false s1 = (Ok t, s2))
               ["PyFloat_FromDouble(a)"; "PyFloat_FromDouble(b)"] inner.
Proof.
  apply (PyTuple_Pack_resolves_to_tuple
           Sample.externals (Sample.converter "" "") 1
           "PyTuple_Pack(2, PyFloat_FromDouble(a), PyFloat_FromDouble(b))"
           0 false []).
  - reflexivity.
  - reflexivity.
  - reflexivity.
  - intros v s1 Hv.
    change (In v ["PyFloat_FromDouble(a)"; "PyFloat_FromDouble(b)"]) in Hv.
    destruct Hv as [<- | [<- | []]]; exists (TStr "float"), s1; reflexivity.
Defined.

(** The scenario of the specification. *)
Example PyTuple_Pack_of_two_floats :
  getExpressionType Sample.externals (Sample.converter "" "") 2
    "PyTuple_Pack(2, PyFloat_FromDouble(a), PyFloat_FromDouble(b))" 0 false []
  = (Ok (TStr "tuple[float, float]"), []).
Proof. reflexivity. Qed.

(** C4 as stated fails: a [PyTuple_Pack] fragment that mentions [Py_True]
    or [Py_False] is answered by the containment rule for booleans, which
    comes before the rule for [PyTuple_Pack], and resolves to [bool]; and
    on [PyTuple_Pack(2, PyLong_FromLong(n), NULL)] the second packed
    sub-expression has no type, and [InvalidReturnType] leaves the whole
    resolution. *)
Lemma PyTuple_Pack_is_not_always_a_tuple :
  let E := Sample.externals in
  let self := Sample.converter "" "" in
  getExpressionType E self 2 "PyTuple_Pack(2, Py_True, Py_False)" 0 false []
    = (Ok (TStr "bool"), [])
  /\ tl (genFuncArgs E "PyTuple_Pack(2, Py_True, Py_False)")
     = ["Py_True"; "Py_False"]
  /\ getExpressionType E self 2 "Py_True" 0 false [] = (Ok (TStr "bool"), [])
  /\ getExpressionType E self 2 "Py_False" 0 false [] = (Ok (TStr "bool"), [])
  /\ getExpressionType E self 2 "PyTuple_Pack(2, PyLong_FromLong(n), NULL)"
       0 false []
     = (Raise InvalidReturnType, []).
Proof. cbv zeta. repeat split; reflexivity. Qed.

(* ===================================================================== *)
(** ** Builder calls *)
(* ===================================================================== *)

Lemma start_included (s p : string) (alts : list string) :
  startswith s p = true ->
  existsb (String.eqb p) alts = true ->
  StrWrapper.start s alts = true.
Proof.
  intros Hp Hin. unfold StrWrapper.start.
  apply existsb_exists in Hin. destruct Hin as [q [Hq Heq]].
  apply String.eqb_eq in Heq. subst q.
  apply existsb_exists. now exists p.
Qed.

Ltac exclude_starts sw H :=
  repeat match goal with
         | |- context [StrWrapper.start sw ?alts] =>
             rewrite (start_excluded sw _ alts H) by reflexivity
         end.

Ltac include_start sw H :=
  match goal with
  | |- context [StrWrapper.start sw ?alts] =>
      rewrite (start_included sw _ alts H) by reflexivity
  end.

(** A fragment that, once normalised, starts with one of the builder
    prefixes of [_matchPyType] resolves to the type of that prefix, whatever
    follows the prefix, in both modes, and without touching the required
    imports.  (So does any fragment that merely starts with [int].) *)
Theorem builder_prefix_fixes_the_type
  (E : Externals) (self : Self) (fuel : nat)
  (varText : string) (endPos : nat) (onlyLiteral : bool) (s : OrderedStrSet)
  (prefix type : string) :
  In (prefix, type) builderPrefixes ->
  startswith (_removeSuffix (_removePrefixes varText)) prefix = true ->
  getExpressionType E self (S fuel) varText endPos onlyLiteral s
    = (Ok (TStr type), s).
Proof.
  intros Hin Hstart.
  change (getExpressionType E self (S fuel) varText endPos onlyLiteral)
    with (getExpressionType_body E self (getExpressionType E self fuel)
            varText endPos onlyLiteral).
  unfold getExpressionType_body.
  set (sw := _removeSuffix (_removePrefixes varText)) in *. clearbody sw.
  unfold resolvers. cbn [dispatch].
  unfold builderPrefixes in Hin. simpl in Hin.
  repeat (destruct Hin as [Hin | Hin];
          [ injection Hin as <- <-;
            unfold bind at 1, _matchLiterals;
            rewrite (eqb_excluded sw _ "" Hstart) by reflexivity;
            rewrite (str_in_excluded sw _ _ Hstart) by reflexivity;
            unfold no_match, ret at 1;
            unfold bind at 1, _matchPyType;
            rewrite (eqb_excluded sw _ "Py::Object()" Hstart) by reflexivity;
            rewrite (str_in_excluded sw _ _ Hstart) by reflexivity;
            exclude_starts sw Hstart;
            include_start sw Hstart;
            reflexivity
          | ]).
  contradiction.
Qed.

Lemma builder_prefix_fixes_the_type_witness :
  getExpressionType Sample.externals (Sample.converter "" "") 1
    "const Py::Boolean(x > 0) &" 7 false ["Part"]
  = (Ok (TStr "bool"), ["Part"]).
Proof.
  apply (builder_prefix_fixes_the_type
           Sample.externals (Sample.converter "" "") 0
           "const Py::Boolean(x > 0) &" 7 false ["Part"] "Py::Boolean" "bool").
  - simpl. tauto.
  - reflexivity.
Defined.

(* ===================================================================== *)
(** ** Every answer comes from a resolver *)
(* ===================================================================== *)

Section Answers.

Variable E : Externals.
Variable self : Self.
Variable getExpressionType_self : string -> nat -> bool -> M RetType.

Lemma answers_found (t : RetType) : answers (found t).
Proof. intros s s' H. discriminate H. Qed.

Lemma answers_returning (m : M RetType) : answers (returning m).
Proof.
  intros s s'. unfold returning, bind, ret.
  destruct (m s) as [[t | e |] s1]; discriminate.
Qed.

Lemma _matchFinalPossibilities_answers
  (sw : string) (endPos : nat) (onlyLiteral : bool) :
  answers (_matchFinalPossibilities E self getExpressionType_self
             sw endPos onlyLiteral).
Proof.
  unfold _matchFinalPossibilities. cbv zeta.
  repeat first
    [ apply answers_found
    | apply answers_returning
    | match goal with
      | |- answers (if ?b then _ else _) => destruct b
      end ].
Qed.

Lemma dispatch_answer
  (methods : list (string -> nat -> bool -> M (option RetType)))
  (sw : string) (endPos : nat) (onlyLiteral : bool)
  (s s' : OrderedStrSet) (t : RetType) :
  (forall m, In m methods -> silent (m sw endPos onlyLiteral)) ->
  dispatch methods sw endPos onlyLiteral s = (Ok t, s') ->
  (exists before method after,
      methods = before ++ method :: after
      /\ Forall (fun earlier => earlier sw endPos onlyLiteral s = (Ok None, s))
                before
      /\ method sw endPos onlyLiteral s = (Ok (Some t), s'))
  \/ Forall (fun m => m sw endPos onlyLiteral s = (Ok None, s)) methods.
Proof.
  induction methods as [|m methods IH]; intros Hsilent Hrun.
  - right. constructor.
  - simpl in Hrun. unfold bind in Hrun.
    destruct (m sw endPos onlyLiteral s) as [[[t0|] | e |] s0] eqn:Hm;
      try discriminate.
    + left. exists [], m, methods. unfold ret in Hrun.
      injection Hrun as <- <-. repeat split; [constructor | assumption].
    + assert (s0 = s) as -> by exact (Hsilent m (or_introl eq_refl) s s0 Hm).
      destruct (IH (fun m' H' => Hsilent m' (or_intror H')) Hrun)
        as [[before [method [after [Heq [Hbefore Hmethod]]]]] | Hall].
      * left. exists (m :: before), method, after.
        rewrite Heq. repeat split; [constructor|]; assumption.
      * right. now constructor.
Qed.

End Answers.

(** Whenever [getExpressionType] returns a type, one of the seven resolvers
    returned it, and every resolver before that one answered [None]: the
    [return AnyValue] after the loop is never reached, because the fallback
    resolver always has an answer. *)
Theorem getExpressionType_answer_comes_from_a_resolver
  (E : Externals) (self : Self) (fuel : nat)
  (varText : string) (endPos : nat) (onlyLiteral : bool)
  (s s' : OrderedStrSet) (t : RetType) :
  let resolver := getExpressionType E self fuel in
  let sw := _removeSuffix (_removePrefixes varText) in
  getExpressionType E self (S fuel) varText endPos onlyLiteral s = (Ok t, s') ->
  exists before method after,
    resolvers E self resolver = before ++ method :: after
    /\ Forall (fun earlier => earlier sw endPos onlyLiteral s = (Ok None, s))
              before
    /\ method sw endPos onlyLiteral s = (Ok (Some t), s').
Proof.
  intros resolver sw Hrun.
  change (dispatch (resolvers E self resolver) sw endPos onlyLiteral s
          = (Ok t, s')) in Hrun.
  destruct (dispatch_answer (resolvers E self resolver) sw endPos onlyLiteral
              s s' t) as [Hfound | Hnone]; [ | assumption | assumption | ].
  - intros m Hm. now apply resolvers_silent with (1 := Hm).
  - exfalso. unfold resolvers in Hnone.
    repeat match goal with
           | H : Forall _ (_ :: _) |- _ => inversion H; subst; clear H
           end.
    eapply _matchFinalPossibilities_answers. eassumption.
Qed.

Lemma getExpressionType_answer_comes_from_a_resolver_witness :
  exists before method after,
    resolvers Sample.externals (Sample.converter "" "")
      (getExpressionType Sample.externals (Sample.converter "" "") 0)
    = before ++ method :: after
    /\ Forall (fun earlier => earlier "a == b" 0 false [] = (Ok None, [])) before
    /\ method "a == b" 0 false [] = (Ok (Some (TStr "bool")), []).
Proof.
  apply (getExpressionType_answer_comes_from_a_resolver
           Sample.externals (Sample.converter "" "") 0
           " a == b " 0 false [] [] (TStr "bool")).
  reflexivity.
Defined.

(* ===================================================================== *)
(** ** The required imports only grow *)
(* ===================================================================== *)

Section ExtendsFacts.

Lemma extends_ret {A : Type} (a : A) : extends (ret a).
Proof. intros s. exists []. simpl. now rewrite app_nil_r. Qed.

Lemma extends_raise {A : Type} (e : exn) : extends (@raise A e).
Proof. intros s. exists []. simpl. now rewrite app_nil_r. Qed.

Lemma extends_bind {A B : Type} (m : M A) (f : A -> M B) :
  extends m -> (forall a, extends (f a)) -> extends (bind m f).
Proof.
  intros Hm Hf s. unfold bind. destruct (Hm s) as [added Hadded].
  destruct (m s) as [[a | e |] s1]; simpl in *; subst s1.
  - destruct (Hf a (s ++ added)) as [added' H']. exists (added ++ added').
    now rewrite H', app_assoc.
  - now exists added.
  - now exists added.
Qed.

Lemma extends_add (x : string) : extends (requiredImports_add x).
Proof.
  intros s. unfold requiredImports_add, OrderedStrSet_add. simpl.
  rewrite ordered_add_mem.
  destruct (existsb (fun y => y =? x) s); [exists [] | exists [x]];
    [now rewrite app_nil_r | reflexivity].
Qed.

Lemma OrderedStrSet_update_appends (xs : list string) (s : OrderedStrSet) :
  exists added, OrderedStrSet_update xs s = s ++ added.
Proof.
  unfold OrderedStrSet_update. revert s.
  induction xs as [|x xs IH]; intros s; simpl.
  - exists []. now rewrite app_nil_r.
  - destruct (extends_add x s) as [a1 H1]. simpl in H1.
    destruct (IH (OrderedStrSet_add x s)) as [a2 H2].
    exists (a1 ++ a2). rewrite H2, H1. now rewrite app_assoc.
Qed.

Lemma extends_update (xs : list string) : extends (requiredImports_update xs).
Proof. intros s. apply OrderedStrSet_update_appends. Qed.

Lemma extends_generator {A : Type} (m : M A) :
  extends m -> extends (generator m).
Proof.
  intros Hm s. unfold generator. destruct (Hm s) as [added H].
  exists added. destruct (m s) as [[a | [] |] s1]; exact H.
Qed.

Lemma extends_try_except {A : Type} (body handler : M A) :
  extends body -> extends handler ->
  extends (try_except_InvalidReturnType body handler).
Proof.
  intros Hb Hh s. unfold try_except_InvalidReturnType.
  destruct (Hb s) as [added H].
  destruct (body s) as [[a | [] |] s1]; simpl in *; try (now exists added).
  subst s1. destruct (Hh (s ++ added)) as [added' H'].
  exists (added ++ added'). now rewrite H', app_assoc.
Qed.

Lemma extends_mapM {A B : Type} (f : A -> M B) (xs : list A) :
  (forall x, extends (f x)) -> extends (mapM f xs).
Proof.
  intros Hf. induction xs as [|x xs IH]; simpl.
  - apply extends_ret.
  - apply extends_bind; [apply Hf|]. intros y.
    apply extends_bind; [apply IH|]. intros ys. apply extends_ret.
Qed.

End ExtendsFacts.

Section ExtendsResolvers.

Variable E : Externals.
Variable self : Self.
Variable getExpressionType_self : string -> nat -> bool -> M RetType.

Hypothesis resolver_extends :
  forall v endPos onlyLiteral, extends (getExpressionType_self v endPos onlyLiteral).

Hypothesis hook_extends :
  forall t n a b c, extends (getInnerType E getExpressionType_self t n a b c).

Ltac extends_walk :=
  repeat first
    [ apply extends_ret
    | apply extends_raise
    | apply extends_add
    | apply resolver_extends
    | apply hook_extends
    | apply extends_mapM; intros
    | apply extends_generator
    | apply extends_bind; [ | intros ]
    | match goal with
      | |- extends (if ?b then _ else _) => destruct b
      | |- extends (match ?x with _ => _ end) => destruct x
      end ].

Lemma _findClassWithModule_extends (text mustDiffer : string) :
  extends (_findClassWithModule E self text mustDiffer).
Proof. unfold _findClassWithModule. cbv zeta. extends_walk. Qed.

Lemma _genVariableTypeFromRegex_items_extends
  (texts : list string) (endPos : nat) (onlyLiteral : bool) :
  extends (_genVariableTypeFromRegex_items getExpressionType_self
             texts endPos onlyLiteral).
Proof.
  induction texts as [|t texts IH]; simpl; [apply extends_ret|].
  apply extends_bind; [apply resolver_extends|]. intros varType.
  apply extends_bind; [apply IH|]. intros later. apply extends_ret.
Qed.

Lemma _findVariableType_body_extends
  (variableName : string) (endPos : nat) (m : DecMatch) (varTypeDec : string) :
  extends (_findVariableType_body E self getExpressionType_self
             variableName endPos m varTypeDec).
Proof.
  unfold _findVariableType_body, _findVariableType_declared,
    _getRetTypeFromAssignment, _genVariableTypeFromRegex.
  cbv zeta.
  repeat first
    [ apply _genVariableTypeFromRegex_items_extends | progress extends_walk ].
Qed.

Lemma _findVariableType_extends (variableName : string) (endPos : nat) :
  extends (_findVariableType E self getExpressionType_self variableName endPos).
Proof.
  unfold _findVariableType. cbv zeta.
  destruct (variableName =? "this"); [apply extends_ret|].
  induction (List.rev (variableDecReg_finditer E variableName
                         (functionBody self) endPos)) as [|m ms IH]; simpl.
  - apply resolver_extends.
  - destruct (truthy (m_directive m)); [exact IH|].
    destruct (_extractTypeFromMatch m) as [t|]; [|exact IH].
    destruct (t =? ""); [exact IH|].
    apply _findVariableType_body_extends.
Qed.

Lemma resolvers_extend
  (method : string -> nat -> bool -> M (option RetType))
  (sw : string) (endPos : nat) (onlyLiteral : bool) :
  In method (resolvers E self getExpressionType_self) ->
  extends (method sw endPos onlyLiteral).
Proof.
  unfold resolvers. simpl.
  intros [<- | [<- | [<- | [<- | [<- | [<- | [<- | []]]]]]]].
  - unfold _matchLiterals, found, no_match. extends_walk.
  - unfold _matchPyType, found, no_match, returning. extends_walk.
  - unfold _matchSpecial, found, no_match. extends_walk.
  - unfold _matchQt, _extractWidget, found, no_match, returning. cbv zeta.
    extends_walk.
  - unfold _matchMethodCall, _extractPivy, _extractBuildValue,
      found, no_match, returning.
    cbv zeta.
    repeat first [ apply _findClassWithModule_extends | progress extends_walk ].
  - unfold _matchFreeCAD, found, no_match. cbv zeta. extends_walk.
  - unfold _matchFinalPossibilities, found, returning. cbv zeta.
    repeat first
      [ apply _findClassWithModule_extends
      | apply _findVariableType_extends
      | progress extends_walk ].
Qed.

Lemma getExpressionType_body_extends
  (varText : string) (endPos : nat) (onlyLiteral : bool) :
  extends (getExpressionType_body E self getExpressionType_self
             varText endPos onlyLiteral).
Proof.
  unfold getExpressionType_body. cbv zeta.
  generalize (_removeSuffix (_removePrefixes varText)) as sw. intros sw.
  pose proof (fun m => resolvers_extend m sw endPos onlyLiteral) as Hall.
  induction (resolvers E self getExpressionType_self) as [|m ms IH]; simpl.
  - apply extends_ret.
  - apply extends_bind; [apply Hall; now left|].
    intros [t|]; [apply extends_ret|].
    apply IH. intros m' Hm'. apply Hall. now right.
Qed.

End ExtendsResolvers.

(** A resolution only ever adds to [requiredImports]: provided the
    [getInnerType] hook does so when the resolver it is given does, the set
    left by [getExpressionType], and by [getStrReturnType], is the set they
    were given followed by the modules added; nothing is removed or
    reordered, whether the call returns or raises. *)
Theorem requiredImports_only_grow
  (E : Externals) (self : Self) (fuel : nat) :
  (forall resolver,
      (forall v endPos onlyLiteral, extends (resolver v endPos onlyLiteral)) ->
      forall t n a b c, extends (getInnerType E resolver t n a b c)) ->
  (forall varText endPos onlyLiteral,
      extends (getExpressionType E self fuel varText endPos onlyLiteral))
  /\ extends (getStrReturnType E self fuel).
Proof.
  intros Hhook.
  assert (Hresolve : forall n varText endPos onlyLiteral,
             extends (getExpressionType E self n varText endPos onlyLiteral)).
  { induction n as [|n IH]; intros varText endPos onlyLiteral.
    - intros s. exists []. simpl. now rewrite app_nil_r.
    - apply getExpressionType_body_extends; [exact IH | exact (Hhook _ IH)]. }
  split; [apply Hresolve|].
  unfold getStrReturnType, getReturnType, _genReturnType.
  apply extends_bind.
  - apply extends_bind.
    + apply extends_generator.
      induction (REG_RETURN_finditer (functionBody self)) as [|m ms IH]; simpl.
      * apply extends_ret.
      * apply extends_bind.
        { unfold _genReturnType_step. apply extends_try_except.
          - apply extends_bind; [apply Hresolve|].
            intros [t | u |]; apply extends_ret.
          - apply extends_ret. }
        intros yielded. apply extends_bind; [apply IH|].
        intros later. apply extends_ret.
    + intros items. cbv zeta.
      apply extends_bind; [apply extends_update|].
      intros _. apply extends_ret.
  - intros [r|]; apply extends_ret.
Qed.

Lemma requiredImports_only_grow_witness :
  (forall varText endPos onlyLiteral,
      extends (getExpressionType Sample.externals
                 (Sample.converter "return new MeshPy(m);" "") 2
                 varText endPos onlyLiteral))
  /\ extends (getStrReturnType Sample.externals
                (Sample.converter "return new MeshPy(m);" "") 2).
Proof.
  apply (requiredImports_only_grow
           Sample.externals (Sample.converter "return new MeshPy(m);" "") 2).
  intros resolver _ t n a b c. apply extends_ret.
Defined.

(** On the sample body a module is appended behind the ones already
    required. *)
Example import_is_appended :
  getStrReturnType Sample.externals
    (Sample.converter "return new MeshPy(m);" "") 2 ["FreeCAD"]
  = (Ok "Mesh.Mesh", ["FreeCAD"; "Mesh"]).
Proof. reflexivity. Qed.

(* ===================================================================== *)
(** ** Where [InvalidReturnType] comes from *)
(* ===================================================================== *)

Section BlamesFacts.

Variable Q : Prop.

Lemma blames_ret {A : Type} (a : A) : blames Q (ret a).
Proof. intros s s' H. discriminate H. Qed.

Lemma blames_raise {A : Type} (e : exn) :
  e <> InvalidReturnType -> blames Q (@raise A e).
Proof. intros He s s' H. elim He. now injection H. Qed.

Lemma blames_bind {A B : Type} (m : M A) (f : A -> M B) :
  blames Q m -> (forall a, blames Q (f a)) -> blames Q (bind m f).
Proof.
  intros Hm Hf s s'. unfold bind.
  destruct (m s) as [[a | e |] s1] eqn:Hms.
  - apply Hf.
  - intros H. injection H as -> <-. exact (Hm s s1 Hms).
  - discriminate.
Qed.

Lemma blames_add (x : string) : blames Q (requiredImports_add x).
Proof. intros s s' H. discriminate H. Qed.

Lemma blames_generator {A : Type} (m : M A) :
  blames Q m -> blames Q (generator m).
Proof.
  intros Hm s s'. unfold generator.
  destruct (m s) as [[a | [] |] s1] eqn:Hms; try discriminate.
  intros H. injection H as <-. exact (Hm s s1 Hms).
Qed.

Lemma blames_mapM {A B : Type} (f : A -> M B) (xs : list A) :
  (forall x, blames Q (f x)) -> blames Q (mapM f xs).
Proof.
  intros Hf. induction xs as [|x xs IH]; simpl.
  - apply blames_ret.
  - apply blames_bind; [apply Hf|]. intros y.
    apply blames_bind; [apply IH|]. intros ys. apply blames_ret.
Qed.

End BlamesFacts.

Section BlamesResolvers.

Variable E : Externals.
Variable self : Self.
Variable getExpressionType_self : string -> nat -> bool -> M RetType.
Variable Q : Prop.

Hypothesis resolver_blames :
  forall v endPos onlyLiteral,
    blames Q (getExpressionType_self v endPos onlyLiteral).

Hypothesis hook_blames :
  forall t n a b c,
    blames Q (getInnerType E getExpressionType_self t n a b c).

Ltac blames_walk :=
  repeat first
    [ apply blames_ret
    | apply blames_raise; discriminate
    | apply blames_add
    | apply resolver_blames
    | apply hook_blames
    | apply blames_mapM; intros
    | apply blames_generator
    | apply blames_bind; [ | intros ]
    | match goal with
      | |- blames _ (if ?b then _ else _) => destruct b
      | |- blames _ (match ?x with _ => _ end) => destruct x
      end ].

Lemma _findClassWithModule_blames (text mustDiffer : string) :
  blames Q (_findClassWithModule E self text mustDiffer).
Proof. unfold _findClassWithModule. cbv zeta. blames_walk. Qed.

Lemma _genVariableTypeFromRegex_items_blames
  (texts : list string) (endPos : nat) (onlyLiteral : bool) :
  blames Q (_genVariableTypeFromRegex_items getExpressionType_self
              texts endPos onlyLiteral).
Proof.
  induction texts as [|t texts IH]; simpl; [apply blames_ret|].
  apply blames_bind; [apply resolver_blames|]. intros varType.
  apply blames_bind; [apply IH|]. intros later. apply blames_ret.
Qed.

Lemma _findVariableType_body_blames
  (variableName : string) (endPos : nat) (m : DecMatch) (varTypeDec : string) :
  blames Q (_findVariableType_body E self getExpressionType_self
              variableName endPos m varTypeDec).
Proof.
  unfold _findVariableType_body, _findVariableType_declared,
    _getRetTypeFromAssignment, _genVariableTypeFromRegex.
  cbv zeta.
  repeat first
    [ apply _genVariableTypeFromRegex_items_blames
    | progress blames_walk ].
Qed.

Lemma _findVariableType_blames (variableName : string) (endPos : nat) :
  blames Q (_findVariableType E self getExpressionType_self
              variableName endPos).
Proof.
  unfold _findVariableType. cbv zeta.
  destruct (variableName =? "this"); [apply blames_ret|].
  induction (List.rev (variableDecReg_finditer E variableName
                         (functionBody self) endPos)) as [|m ms IH]; simpl.
  - apply resolver_blames.
  - destruct (truthy (m_directive m)); [exact IH|].
    destruct (_extractTypeFromMatch m) as [t|]; [|exact IH].
    destruct (t =? ""); [exact IH|].
    apply _findVariableType_body_blames.
Qed.

Lemma later_resolvers_blame
  (method : string -> nat -> bool -> M (option RetType))
  (sw : string) (endPos : nat) (onlyLiteral : bool) :
  In method (tl (resolvers E self getExpressionType_self)) ->
  blames Q (method sw endPos onlyLiteral).
Proof.
  unfold resolvers. simpl.
  intros [<- | [<- | [<- | [<- | [<- | [<- | []]]]]]].
  - unfold _matchPyType, found, no_match, returning. blames_walk.
  - unfold _matchSpecial, found, no_match. blames_walk.
  - unfold _matchQt, _extractWidget, found, no_match, returning. cbv zeta.
    blames_walk.
  - unfold _matchMethodCall, _extractPivy, _extractBuildValue,
      found, no_match, returning.
    cbv zeta.
    repeat first
      [ apply _findClassWithModule_blames
      | progress blames_walk ].
  - unfold _matchFreeCAD, found, no_match. cbv zeta. blames_walk.
  - unfold _matchFinalPossibilities, found, returning. cbv zeta.
    repeat first
      [ apply _findClassWithModule_blames
      | apply _findVariableType_blames
      | progress blames_walk ].
Qed.

Lemma dispatch_blames
  (methods : list (string -> nat -> bool -> M (option RetType)))
  (sw : string) (endPos : nat) (onlyLiteral : bool) :
  (forall m, In m methods -> blames Q (m sw endPos onlyLiteral)) ->
  blames Q (dispatch methods sw endPos onlyLiteral).
Proof.
  induction methods as [|m ms IH]; intros Hall; simpl.
  - apply blames_ret.
  - apply blames_bind; [apply Hall; now left|].
    intros [t|]; [apply blames_ret|].
    apply IH. intros m' Hm'. apply Hall. now right.
Qed.

(** One call: the exception is the call's own, for a sentinel, or it came
    out of a nested call or of the hook. *)
Lemma getExpressionType_body_raises
  (varText : string) (endPos : nat) (onlyLiteral : bool)
  (s s' : OrderedStrSet) :
  getExpressionType_body E self getExpressionType_self
      varText endPos onlyLiteral s
    = (Raise InvalidReturnType, s') ->
  (In (_removeSuffix (_removePrefixes varText)) sentinels
   /\ onlyLiteral = false /\ s' = s)
  \/ Q.
Proof.
  unfold getExpressionType_body. cbv zeta.
  generalize (_removeSuffix (_removePrefixes varText)) as sw. intros sw.
  pose proof (dispatch_blames
                (tl (resolvers E self getExpressionType_self))
                sw endPos onlyLiteral
                (fun m Hm => later_resolvers_blame m sw endPos onlyLiteral Hm)
                s s') as Hlater.
  unfold resolvers in *. cbn [dispatch tl] in *.
  unfold bind at 1. unfold _matchLiterals at 1.
  destruct (sw =? ""); [discriminate|].
  destruct (str_in sw ["0"; "-1"; "NULL"; "nullptr"; "0L"]) eqn:Hsentinel.
  - destruct onlyLiteral; [discriminate|].
    intros H. injection H as <-. left.
    repeat split.
    unfold str_in in Hsentinel. apply existsb_exists in Hsentinel.
    destruct Hsentinel as [x [Hx Heq]]. apply String.eqb_eq in Heq.
    now subst x.
  - unfold no_match, ret at 1. intros H. right. now apply Hlater.
Qed.

End BlamesResolvers.



(* ===================================================================== *)
(** ** Widget casts and searches that find no declaration *)
(* ===================================================================== *)

(** [_extractWidget] accepts a cast with one or two arguments and answers
    with a class of [qtpy.QtWidgets] whose name starts with [Q]: [QWidget]
    for one argument; for two, the second argument unquoted when that
    starts with [Q], and [QWidget] when it does not.  A cast with no
    argument or with more than two raises [NotImplementedError].  The
    required imports are not touched. *)
Theorem _extractWidget_shape
  (E : Externals) (varText : string) (s : OrderedStrSet) :
  let args := genFuncArgs E varText in
  (exists widget,
      _extractWidget E varText s
        = (Ok (TStr ("qtpy.QtWidgets." ++ widget)), s)
      /\ startswith widget "Q" = true
      /\ ((exists castArg, args = [castArg] /\ widget = "QWidget")
          \/ (exists castArg castType,
                 args = [castArg; castType]
                 /\ widget = if startswith (removeQuote E castType) "Q"
                             then removeQuote E castType
                             else "QWidget")))
  \/ ((args = [] \/ 3 <= length args)
      /\ _extractWidget E varText s = (Raise NotImplementedError, s)).
Proof.
  cbv zeta. unfold _extractWidget.
  destruct (genFuncArgs E varText) as [|a0 [|a1 [|a2 rest]]].
  - right. split; [now left | reflexivity].
  - left. exists "QWidget". repeat split. left. now exists a0.
  - left.
    exists (if startswith (removeQuote E a1) "Q"
            then removeQuote E a1 else "QWidget").
    split; [reflexivity|]. split.
    + destruct (startswith (removeQuote E a1) "Q") eqn:HQ;
        [exact HQ | reflexivity].
    + right. now exists a0, a1.
  - right. split; [right; simpl; lia | reflexivity].
Qed.

Lemma _extractWidget_shape_witness :
  let args := genFuncArgs Sample.externals "wrap.fromQWidget(w, child)" in
  (exists widget,
      _extractWidget Sample.externals "wrap.fromQWidget(w, child)" []
        = (Ok (TStr ("qtpy.QtWidgets." ++ widget)), [])
      /\ startswith widget "Q" = true
      /\ ((exists castArg, args = [castArg] /\ widget = "QWidget")
          \/ (exists castArg castType,
                 args = [castArg; castType]
                 /\ widget = if startswith
                                  (removeQuote Sample.externals castType) "Q"
                             then removeQuote Sample.externals castType
                             else "QWidget")))
  \/ ((args = [] \/ 3 <= length args)
      /\ _extractWidget Sample.externals "wrap.fromQWidget(w, child)" []
         = (Raise NotImplementedError, [])).
Proof.
  exact (_extractWidget_shape Sample.externals "wrap.fromQWidget(w, child)" []).
Defined.

(** On the sample cast the second argument names no [Q] class, and the
    answer is the generic widget. *)
Example widget_cast_defaults_to_QWidget :
  _extractWidget Sample.externals "wrap.fromQWidget(w, child)" []
  = (Ok (TStr "qtpy.QtWidgets.QWidget"), []).
Proof. reflexivity. Qed.

(** When the declaration pattern has no match for a variable before the
    offset, or only matches the loop passes over (directives, [return] and
    [else]), the variable-type search falls back on resolving the variable
    name itself in literal-only mode. *)
Theorem no_declaration_falls_back_to_the_name
  (E : Externals) (self : Self)
  (getExpressionType_self : string -> nat -> bool -> M RetType)
  (variableName : string) (endPos : nat) :
  variableName <> "this" ->
  Forall (fun m => skipped m = true)
         (variableDecReg_finditer E variableName (functionBody self) endPos) ->
  _findVariableType E self getExpressionType_self variableName endPos
  = getExpressionType_self variableName endPos true.
Proof.
  intros Hthis Hall. unfold _findVariableType.
  apply String.eqb_neq in Hthis. rewrite Hthis.
  rewrite <- (app_nil_r (List.rev _)).
  rewrite _findVariableType_loop_skips by now apply Forall_rev.
  reflexivity.
Qed.

Lemma no_declaration_falls_back_to_the_name_witness :
  let self := Sample.converter Sample.body_two_declarations "" in
  let resolver := getExpressionType Sample.externals self 1 in
  _findVariableType Sample.externals self resolver "x" 10
  = resolver "x" 10 true.
Proof.
  cbv zeta.
  apply (no_declaration_falls_back_to_the_name
           Sample.externals
           (Sample.converter Sample.body_two_declarations "")
           (getExpressionType Sample.externals
              (Sample.converter Sample.body_two_declarations "") 1)
           "x" 10).
  - discriminate.
  - apply Forall_nil.
Defined.

(* ===================================================================== *)
(** ** Surrounding whitespace *)
(* ===================================================================== *)

Section StripFacts.

Lemma append_nil_r (s : string) : (s ++ "")%string = s.
Proof. induction s as [|c s IH]; simpl; congruence. Qed.

Lemma append_assoc (a b c : string) :
  ((a ++ b) ++ c)%string = (a ++ (b ++ c))%string.
Proof. induction a as [|x a IH]; simpl; congruence. Qed.

Lemma rev_onto_append (s acc : string) :
  rev_onto s acc = (rev_onto s "" ++ acc)%string.
Proof.
  revert acc. induction s as [|c s IH]; intros acc; simpl; [reflexivity|].
  rewrite (IH (String c acc)), (IH (String c "")).
  now rewrite append_assoc.
Qed.

Lemma rev_cons (c : ascii) (s : string) :
  rev (String c s) = (rev s ++ String c "")%string.
Proof. unfold rev. simpl. apply rev_onto_append. Qed.

Lemma rev_snoc (c : ascii) (s : string) :
  rev (s ++ String c "") = String c (rev s).
Proof.
  induction s as [|x s IH]; [reflexivity|].
  simpl append. rewrite !rev_cons, IH. reflexivity.
Qed.

Lemma rev_involutive (s : string) : rev (rev s) = s.
Proof.
  induction s as [|c s IH]; [reflexivity|].
  now rewrite rev_cons, rev_snoc, IH.
Qed.

Lemma lstrip_idempotent (s : string) : lstrip (lstrip s) = lstrip s.
Proof.
  induction s as [|c s IH]; simpl; [reflexivity|].
  destruct (isspace c) eqn:Hc; [assumption|].
  simpl. now rewrite Hc.
Qed.

Lemma lstrip_head (s : string) :
  lstrip s = "" \/ exists c t, lstrip s = String c t /\ isspace c = false.
Proof.
  induction s as [|c s IH]; simpl; [now left|].
  destruct (isspace c) eqn:Hc; [assumption|].
  right. now exists c, s.
Qed.

Lemma lstrip_snoc (c : ascii) (s : string) :
  isspace c = false ->
  lstrip (s ++ String c "") = (lstrip s ++ String c "")%string.
Proof.
  intros Hc. induction s as [|x s IH]; simpl.
  - now rewrite Hc.
  - destruct (isspace x); [assumption | reflexivity].
Qed.

Lemma rstrip_cons (c : ascii) (s : string) :
  isspace c = false -> rstrip (String c s) = String c (rstrip s).
Proof.
  intros Hc. unfold rstrip.
  now rewrite rev_cons, lstrip_snoc, rev_snoc.
Qed.

Lemma rstrip_idempotent (s : string) : rstrip (rstrip s) = rstrip s.
Proof. unfold rstrip. now rewrite rev_involutive, lstrip_idempotent. Qed.

Lemma strip_idempotent (s : string) : strip (strip s) = strip s.
Proof.
  unfold strip.
  destruct (lstrip_head s) as [H | [c [t [H Hc]]]]; rewrite H.
  - reflexivity.
  - rewrite (rstrip_cons c t Hc). simpl. rewrite Hc.
    rewrite <- (rstrip_cons c t Hc). apply rstrip_idempotent.
Qed.

End StripFacts.

(** Whitespace around a fragment is immaterial: resolving a fragment and
    resolving the fragment stripped of leading and trailing whitespace give
    the same outcome and the same required imports. *)
Theorem surrounding_whitespace_is_immaterial
  (E : Externals) (self : Self) (fuel : nat)
  (varText : string) (endPos : nat) (onlyLiteral : bool) :
  getExpressionType E self fuel (strip varText) endPos onlyLiteral
  = getExpressionType E self fuel varText endPos onlyLiteral.
Proof.
  destruct fuel as [|fuel]; [reflexivity|].
  change (getExpressionType_body E self (getExpressionType E self fuel)
            (strip varText) endPos onlyLiteral
          = getExpressionType_body E self (getExpressionType E self fuel)
              varText endPos onlyLiteral).
  unfold getExpressionType_body, _removePrefixes. cbv zeta.
  now rewrite strip_idempotent.
Qed.

(* ===================================================================== *)
(** ** The return statements found in a body *)
(* ===================================================================== *)

Section ReturnPattern.

Lemma after_char_split (c : ascii) (s t : string) :
  after_char c s = Some t ->
  s = (before_char c s ++ String c t)%string.
Proof.
  revert t. induction s as [|x s IH]; intros t; simpl; [discriminate|].
  destruct (Ascii.eqb_spec x c) as [->|Hx].
  - intros H. injection H as ->. reflexivity.
  - intros H. simpl. f_equal. now apply IH.
Qed.

Lemma before_char_free (c : ascii) (s : string) :
  PyStr.contain (before_char c s) (String c "") = false.
Proof.
  induction s as [|x s IH]; simpl; [reflexivity|].
  destruct (Ascii.eqb_spec x c) as [->|Hx]; simpl; [reflexivity|].
  destruct (ascii_dec c x) as [->|_]; [now elim Hx|].
  exact IH.
Qed.

Lemma startswith_split (s p : string) :
  startswith s p = true -> s = (p ++ drop (String.length p) s)%string.
Proof.
  unfold startswith. revert s.
  induction p as [|a p IH]; intros s.
  - destruct s; reflexivity.
  - destruct s as [|b s]; simpl; [discriminate|].
    destruct (ascii_dec a b) as [->|]; [|discriminate].
    intros H. f_equal. now apply IH.
Qed.

Lemma REG_RETURN_scan_sound (s : string) :
  forall pos skip group1 end_,
    In (group1, end_) (REG_RETURN_scan s pos skip) ->
    exists start rest,
      drop start s = ("return " ++ group1 ++ ";" ++ rest)%string
      /\ end_ = pos + start + String.length group1 + 8
      /\ group1 <> ""
      /\ PyStr.contain group1 ";" = false.
Proof.
  induction s as [|c s IH]; intros pos skip group1 end_ Hin;
    [contradiction|].
  assert (Hlater : forall skip',
             In (group1, end_) (REG_RETURN_scan s (S pos) skip') ->
             exists start rest,
               drop start (String c s)
                 = ("return " ++ group1 ++ ";" ++ rest)%string
               /\ end_ = pos + start + String.length group1 + 8
               /\ group1 <> ""
               /\ PyStr.contain group1 ";" = false).
  { intros skip' H. destruct (IH _ _ _ _ H) as [i [rest [H1 [H2 [H3 H4]]]]].
    exists (S i), rest. repeat split; try assumption. lia. }
  cbn [REG_RETURN_scan] in Hin.
  destruct skip as [|skip]; [|now apply Hlater with skip].
  destruct (startswith (String c s) "return ") eqn:Hstart;
    [|now apply Hlater with 0].
  remember (drop 7 (String c s)) as tail eqn:Htail.
  destruct (before_char ";" tail) as [|g0 g] eqn:Hgroup;
    [now apply Hlater with 0|].
  destruct (after_char ";" tail) as [rest|] eqn:Hafter;
    [|now apply Hlater with 0].
  destruct Hin as [Hhead | Htl]; [|now apply Hlater with (7 + String.length (String g0 g) + 1 - 1)].
  injection Hhead as <- <-.
  exists 0, rest. repeat split.
  - apply after_char_split in Hafter. rewrite Hgroup in Hafter.
    rewrite (startswith_split _ _ Hstart).
    change (String.length "return ") with 7. rewrite <- Htail.
    rewrite Hafter at 1. reflexivity.
  - cbn [String.length]. lia.
  - discriminate.
  - rewrite <- Hgroup. apply before_char_free.
Qed.

End ReturnPattern.

(** Every return statement handed to the resolver is cut out of the body:
    for a match with group [g] and end offset [e], the body holds
    [return g;] ending exactly at [e], and [g] is not empty and holds no
    semicolon. *)
Theorem REG_RETURN_finditer_sound
  (body group1 : string) (end_ : nat) :
  In (group1, end_) (REG_RETURN_finditer body) ->
  exists start rest,
    drop start body = ("return " ++ group1 ++ ";" ++ rest)%string
    /\ end_ = start + String.length group1 + 8
    /\ group1 <> ""
    /\ PyStr.contain group1 ";" = false.
Proof.
  intros Hin. exact (REG_RETURN_scan_sound body 0 0 group1 end_ Hin).
Qed.

Lemma REG_RETURN_finditer_sound_witness :
  exists start rest,
    drop start "if (!p) return NULL; return Py::Float(v);"
      = ("return " ++ "Py::Float(v)" ++ ";" ++ rest)%string
    /\ 41 = start + String.length "Py::Float(v)" + 8
    /\ "Py::Float(v)" <> ""
    /\ PyStr.contain "Py::Float(v)" ";" = false.
Proof.
  apply (REG_RETURN_finditer_sound
           "if (!p) return NULL; return Py::Float(v);" "Py::Float(v)" 41).
  simpl. tauto.
Defined.

(* ===================================================================== *)
(** ** The new-reference wrapper *)
(* ===================================================================== *)

Section WrapperFacts.

Lemma rstrip_snoc (c : ascii) (s : string) :
  isspace c = false ->
  rstrip (s ++ String c "") = (s ++ String c "")%string.
Proof.
  intros Hc. unfold rstrip. rewrite rev_snoc. simpl. rewrite Hc.
  now rewrite rev_cons, rev_involutive.
Qed.

Lemma endswith_snoc (c : ascii) (s : string) :
  endswith (s ++ String c "") (String c "") = true.
Proof.
  unfold endswith. rewrite rev_snoc. cbn.
  destruct (ascii_dec c c) as [_|n]; [|now elim n].
  now destruct (rev s).
Qed.

Lemma length_snoc (c : ascii) (s : string) :
  String.length (s ++ String c "") = S (String.length s).
Proof. induction s as [|x s IH]; simpl; congruence. Qed.

Lemma take_snoc (c : ascii) (s : string) :
  take (String.length s) (s ++ String c "") = s.
Proof. induction s as [|x s IH]; simpl; congruence. Qed.

Lemma removesuffix_snoc (c : ascii) (s : string) :
  removesuffix (s ++ String c "") (String c "") = s.
Proof.
  unfold removesuffix. rewrite endswith_snoc, length_snoc. simpl.
  rewrite Nat.sub_0_r. apply take_snoc.
Qed.

Lemma startswith_append (p s : string) : startswith (p ++ s) p = true.
Proof.
  unfold startswith. induction p as [|a p IH]; simpl.
  - now destruct s.
  - destruct (ascii_dec a a) as [_|n]; [assumption | now elim n].
Qed.

Lemma drop_append (p s : string) : drop (String.length p) (p ++ s) = s.
Proof. induction p as [|a p IH]; simpl; [now destruct s | assumption]. Qed.

Lemma removeprefix_append (p s : string) : removeprefix (p ++ s) p = s.
Proof. unfold removeprefix. now rewrite startswith_append, drop_append. Qed.

End WrapperFacts.

(** The new-reference wrapper is transparent: [new_reference_to(x)] and
    [Py::new_reference_to(x)] resolve exactly as [x] does (same outcome,
    same required imports), for every [x] that is not itself such a
    wrapper. *)
Theorem new_reference_to_is_transparent
  (E : Externals) (self : Self) (fuel : nat)
  (wrapper x : string) (endPos : nat) (onlyLiteral : bool) :
  In wrapper ["new_reference_to("; "Py::new_reference_to("] ->
  StrWrapper.start (strip x) ["new_reference_to("; "Py::new_reference_to("]
    && StrWrapper.end_ (strip x) [")"] = false ->
  getExpressionType E self fuel (wrapper ++ x ++ ")") endPos onlyLiteral
  = getExpressionType E self fuel x endPos onlyLiteral.
Proof.
  intros Hwrapper Hplain.
  destruct fuel as [|fuel]; [reflexivity|].
  change (getExpressionType_body E self (getExpressionType E self fuel)
            (wrapper ++ x ++ ")") endPos onlyLiteral
          = getExpressionType_body E self (getExpressionType E self fuel)
              x endPos onlyLiteral).
  unfold getExpressionType_body. cbv zeta.
  assert (Hsame : _removePrefixes (wrapper ++ x ++ ")") = _removePrefixes x).
  { unfold _removePrefixes. cbv zeta. rewrite Hplain.
    assert (Hstrip : strip (wrapper ++ x ++ ")")
                     = (wrapper ++ x ++ ")")%string).
    { rewrite <- append_assoc. unfold strip.
      assert (Hl : lstrip ((wrapper ++ x) ++ ")")
                   = ((wrapper ++ x) ++ ")")%string).
      { destruct Hwrapper as [<- | [<- | []]]; reflexivity. }
      rewrite Hl. now apply rstrip_snoc. }
    rewrite Hstrip.
    assert (Hend : StrWrapper.end_ (wrapper ++ x ++ ")") [")"] = true).
    { rewrite <- append_assoc. unfold StrWrapper.end_. simpl.
      now rewrite endswith_snoc. }
    rewrite Hend.
    assert (Hstart : StrWrapper.start (wrapper ++ x ++ ")")
                       ["new_reference_to("; "Py::new_reference_to("] = true).
    { apply start_included with wrapper.
      - apply startswith_append.
      - destruct Hwrapper as [<- | [<- | []]]; reflexivity. }
    rewrite Hstart. cbn [andb].
    assert (Hinner : removeprefix
                       (removeprefix (wrapper ++ x ++ ")") "Py::")
                       "new_reference_to(" = (x ++ ")")%string).
    { destruct Hwrapper as [<- | [<- | []]].
      - change (removeprefix ("new_reference_to(" ++ x ++ ")") "Py::")
          with ("new_reference_to(" ++ x ++ ")")%string.
        apply removeprefix_append.
      - change (removeprefix ("Py::new_reference_to(" ++ x ++ ")") "Py::")
          with ("new_reference_to(" ++ x ++ ")")%string.
        apply removeprefix_append. }
    rewrite Hinner. now rewrite removesuffix_snoc. }
  now rewrite Hsame.
Qed.

Lemma new_reference_to_is_transparent_witness :
  getExpressionType Sample.externals (Sample.converter "" "") 2
    ("Py::new_reference_to(" ++ "new MeshPy(m)" ++ ")") 0 false
  = getExpressionType Sample.externals (Sample.converter "" "") 2
      "new MeshPy(m)" 0 false.
Proof.
  apply (new_reference_to_is_transparent
           Sample.externals (Sample.converter "" "") 2
           "Py::new_reference_to(" "new MeshPy(m)" 0 false).
  - simpl. tauto.
  - reflexivity.
Defined.

(* ===================================================================== *)
(** ** A search that does not end *)
(* ===================================================================== *)

Section SelfAssignmentFacts.

Variable E : Externals.
Variable self : Self.
Variable getExpressionType_self : string -> nat -> bool -> M RetType.
Variables (endPos start_ end_ : nat) (later : list DecMatch).

Hypothesis declared :
  variableDecReg_finditer E "res" (functionBody self) endPos
  = SelfAssignment.declaration start_ end_ :: later.
Hypothesis later_skipped : Forall (fun m => skipped m = true) later.
Hypothesis assigned :
  assignmentReg E "res" (functionBody self) end_ endPos
  = ["Py::asObject(res)"].
Hypothesis unwrapped : genFuncArgs E "Py::asObject(res)" = ["res"].

Lemma bind_no_match {B : Type} (f : option RetType -> M B) :
  bind no_match f = f None.
Proof. reflexivity. Qed.

Lemma resolve_res_searches (s : OrderedStrSet) :
  getExpressionType_body E self getExpressionType_self "res" endPos false s
  = _findVariableType_body E self getExpressionType_self "res" endPos
      (SelfAssignment.declaration start_ end_) "PyObject" s.
Proof.
  unfold getExpressionType_body. cbv zeta.
  change (_removeSuffix (_removePrefixes "res")) with "res".
  unfold resolvers. cbn [dispatch].
  change (_matchLiterals "res" endPos false) with no_match.
  rewrite bind_no_match.
  change (_matchPyType E getExpressionType_self "res" endPos false)
    with no_match.
  rewrite bind_no_match.
  change (_matchSpecial "res" endPos false) with no_match.
  rewrite bind_no_match.
  change (_matchQt E "res" endPos false) with no_match.
  rewrite bind_no_match.
  change (_matchMethodCall E self getExpressionType_self "res" endPos false)
    with no_match.
  rewrite bind_no_match.
  change (_matchFreeCAD E getExpressionType_self "res" endPos false)
    with no_match.
  rewrite bind_no_match.
  change (_matchFinalPossibilities E self getExpressionType_self
            "res" endPos false)
    with (returning (_findVariableType E self getExpressionType_self
                       "res" endPos)).
  unfold _findVariableType.
  change ("res" =? "this") with false. cbv iota zeta.
  rewrite declared. simpl List.rev.
  rewrite _findVariableType_loop_skips by now apply Forall_rev.
  change (_findVariableType_loop E self getExpressionType_self "res" endPos
            [SelfAssignment.declaration start_ end_])
    with (_findVariableType_body E self getExpressionType_self "res" endPos
            (SelfAssignment.declaration start_ end_) "PyObject").
  unfold returning, bind, ret.
  destruct (_findVariableType_body E self getExpressionType_self "res" endPos
              (SelfAssignment.declaration start_ end_) "PyObject" s)
    as [[t | e |] s1]; reflexivity.
Qed.

Lemma resolve_res_without_fuel :
  (forall s, getExpressionType_self "nullptr" endPos true s = (OutOfFuel, s)) ->
  forall s,
    getExpressionType_body E self getExpressionType_self "res" endPos false s
    = (OutOfFuel, s).
Proof.
  intros Hnull s. rewrite resolve_res_searches.
  unfold _findVariableType_body.
  change (_findVariableType_declared E getExpressionType_self endPos
            (SelfAssignment.declaration start_ end_) "PyObject")
    with (getExpressionType_self "nullptr" endPos true).
  unfold bind at 1. now rewrite Hnull.
Qed.

Lemma resolve_res_runs_out :
  (forall s, getExpressionType_self "nullptr" endPos true s = (Ok AnyValue, s)) ->
  (forall s, getExpressionType_self "Py::asObject(res)" endPos false s
             = (OutOfFuel, s)) ->
  forall s,
    getExpressionType_body E self getExpressionType_self "res" endPos false s
    = (OutOfFuel, s).
Proof.
  intros Hnull Hwrap s. rewrite resolve_res_searches.
  unfold _findVariableType_body.
  change (_findVariableType_declared E getExpressionType_self endPos
            (SelfAssignment.declaration start_ end_) "PyObject")
    with (getExpressionType_self "nullptr" endPos true).
  unfold bind at 1. rewrite Hnull.
  cbn [RetType_eqb orb]. cbv zeta.
  unfold bind at 1 2. unfold _getRetTypeFromAssignment. cbv zeta.
  unfold bind at 1. unfold _genVariableTypeFromRegex.
  change (m_end (SelfAssignment.declaration start_ end_)) with end_.
  rewrite assigned. cbn [_genVariableTypeFromRegex_items].
  unfold generator, bind at 1. now rewrite Hwrap.
Qed.

Lemma resolve_wrapper_runs_out :
  (forall s, getExpressionType_self "res" endPos false s = (OutOfFuel, s)) ->
  forall s,
    getExpressionType_body E self getExpressionType_self
      "Py::asObject(res)" endPos false s
    = (OutOfFuel, s).
Proof.
  intros Hres s. unfold getExpressionType_body. cbv zeta.
  change (_removeSuffix (_removePrefixes "Py::asObject(res)"))
    with "Py::asObject(res)".
  unfold resolvers. cbn [dispatch].
  change (_matchLiterals "Py::asObject(res)" endPos false) with no_match.
  rewrite bind_no_match.
  change (_matchPyType E getExpressionType_self "Py::asObject(res)" endPos false)
    with no_match.
  rewrite bind_no_match.
  change (_matchSpecial "Py::asObject(res)" endPos false) with no_match.
  rewrite bind_no_match.
  change (_matchQt E "Py::asObject(res)" endPos false) with no_match.
  rewrite bind_no_match.
  change (_matchMethodCall E self getExpressionType_self
            "Py::asObject(res)" endPos false)
    with (match genFuncArgs E "Py::asObject(res)" with
          | [] => raise StopIteration
          | rawReturnVarName :: _ =>
              returning (getExpressionType_self rawReturnVarName endPos false)
          end).
  rewrite unwrapped.
  unfold bind at 1, returning, bind at 1. now rewrite Hres.
Qed.

End SelfAssignmentFacts.

(** The search need not end.  When the only declaration of [res] before
    the offset is [PyObject* res = nullptr] and the one assignment to it
    that follows is [res = Py::asObject(res)], resolving [res] asks for the
    type of the assigned wrapper, which asks for the type of [res] again:
    [getExpressionType] reaches no outcome, whatever the nesting it is
    allowed (in Python the recursion ends in [RecursionError]). *)
Theorem self_assignment_never_resolves
  (E : Externals) (self : Self) (endPos start_ end_ : nat)
  (later : list DecMatch) (fuel : nat) (s : OrderedStrSet) :
  variableDecReg_finditer E "res" (functionBody self) endPos
    = SelfAssignment.declaration start_ end_ :: later ->
  Forall (fun m => skipped m = true) later ->
  assignmentReg E "res" (functionBody self) end_ endPos
    = ["Py::asObject(res)"] ->
  genFuncArgs E "Py::asObject(res)" = ["res"] ->
  getExpressionType E self fuel "res" endPos false s = (OutOfFuel, s).
Proof.
  intros Hdecl Hlater Hassigned Hargs. revert s.
  enough (H : (forall s, getExpressionType E self fuel "res" endPos false s
                         = (OutOfFuel, s))
              /\ (forall s, getExpressionType E self fuel
                              "Py::asObject(res)" endPos false s
                            = (OutOfFuel, s))) by exact (proj1 H).
  induction fuel as [|n [IHres IHwrap]]; [split; reflexivity|].
  split; intros s.
  - change (getExpressionType_body E self (getExpressionType E self n)
              "res" endPos false s = (OutOfFuel, s)).
    destruct n as [|n].
    + eapply resolve_res_without_fuel; eauto; intros; reflexivity.
    + eapply resolve_res_runs_out; eauto; intros; reflexivity.
  - change (getExpressionType_body E self (getExpressionType E self n)
              "Py::asObject(res)" endPos false s = (OutOfFuel, s)).
    eapply resolve_wrapper_runs_out; eauto.
Qed.

Lemma self_assignment_never_resolves_witness :
  getExpressionType SelfAssignment.externals
    (Sample.converter SelfAssignment.body "") 50 "res" 61 false []
  = (OutOfFuel, []).
Proof.
  apply (self_assignment_never_resolves
           SelfAssignment.externals (Sample.converter SelfAssignment.body "")
           61 0 24 [SelfAssignment.return_match] 50 []).
  - reflexivity.
  - apply Forall_cons; [reflexivity | apply Forall_nil].
  - reflexivity.
  - reflexivity.
Defined.

(* ===================================================================== *)
(** ** The exceptions found in a body *)
(* ===================================================================== *)

Section ExceptionFacts.

Variable E : Externals.
Variable X : ExceptionExternals.

Lemma for_each_invariant {A : Type}
  (step : A -> OrderedStrSet -> outcome OrderedStrSet)
  (P : OrderedStrSet -> Prop) (items : list A) :
  (forall item acc acc', In item items -> P acc ->
      step item acc = Ok acc' -> P acc') ->
  forall acc acc', P acc -> for_each step items acc = Ok acc' -> P acc'.
Proof.
  induction items as [|item rest IH]; intros Hstep acc acc' Hacc; simpl.
  - intros H. injection H as <-. exact Hacc.
  - destruct (step item acc) as [acc1 | e |] eqn:H1; try discriminate.
    apply IH.
    + intros i a a' Hi. apply Hstep. now right.
    + apply (Hstep item acc acc1); [now left | assumption | assumption].
Qed.

Lemma for_each_raises {A : Type}
  (step : A -> OrderedStrSet -> outcome OrderedStrSet) (items : list A) :
  (forall item acc e, step item acc = Raise e -> e = IndexError) ->
  (forall item acc, step item acc <> OutOfFuel) ->
  forall acc,
    (forall e, for_each step items acc = Raise e -> e = IndexError)
    /\ for_each step items acc <> OutOfFuel.
Proof.
  intros Hraise Hfuel.
  induction items as [|item rest IH]; intros acc; simpl.
  - split; [discriminate | discriminate].
  - destruct (step item acc) as [acc1 | e |] eqn:H1.
    + apply IH.
    + split; [|discriminate]. intros e' H. injection H as <-.
      now apply (Hraise item acc).
    + now elim (Hfuel item acc).
Qed.

Lemma add_thrown_name_cases (name : string) (acc : OrderedStrSet) :
  (add_thrown_name X name acc = acc)
  \/ (add_thrown_name X name acc = OrderedStrSet_add name acc
      /\ validatePythonValue X name <> None).
Proof.
  unfold add_thrown_name.
  destruct (validatePythonValue X name); [right | left]; [|reflexivity].
  split; [reflexivity | discriminate].
Qed.

End ExceptionFacts.

(** [getExceptionsFromCode] lists each exception once, and only what the
    body gives rise to: every exception it returns is the registry's text
    for the first argument of a [throw Py::Exception(...)] or of a
    [PyErr_SetString(...)], or the name of a thrown [Py::] exception that
    is a valid Python name.  It raises nothing but [IndexError]. *)
Theorem getExceptionsFromCode_sound
  (E : Externals) (X : ExceptionExternals) (self : Self) :
  (forall exceptions,
      getExceptionsFromCode E X self = Ok exceptions ->
      NoDup exceptions
      /\ forall x, In x exceptions -> reported_by_body E X self x)
  /\ (forall e, getExceptionsFromCode E X self = Raise e -> e = IndexError)
  /\ getExceptionsFromCode E X self <> OutOfFuel.
Proof.
  set (P := fun acc : OrderedStrSet =>
              NoDup acc /\ forall x, In x acc -> reported_by_body E X self x).
  assert (Hthrown : forall m acc acc',
             In m (EXCEPTION_PY_REG_finditer X (functionBody self)) ->
             P acc -> thrown_step E X m acc = Ok acc' -> P acc').
  { intros [name args] acc acc' Hm [Hnd Hsound]. unfold thrown_step. simpl.
    assert (Hname : P (add_thrown_name X name acc)).
    { destruct (add_thrown_name_cases X name acc) as [-> | [-> Hvalid]].
      - now split.
      - split; [now apply ordered_add_NoDup|].
        intros x Hx. apply ordered_add_In in Hx. destruct Hx as [-> | Hx].
        + right. left. now exists args.
        + now apply Hsound. }
    destruct ((name =? "Exception") && negb (args =? "")) eqn:Hcond.
    - apply andb_true_iff in Hcond. destruct Hcond as [Hexc _].
      apply String.eqb_eq in Hexc. subst name.
      destruct (generateExpressionUntilChar E args 0 "," "(" ")")
        as [|a rest] eqn:Hsplit; [discriminate|].
      destruct (String.eqb_spec a "") as [->|Ha]; simpl.
      + intros H. injection H as <-. exact Hname.
      + intros H. injection H as <-.
        split; [now apply ordered_add_NoDup|].
        intros x Hx. apply ordered_add_In in Hx. destruct Hx as [-> | Hx].
        * left. now exists args, a, rest.
        * now apply Hsound.
    - intros H. injection H as <-. exact Hname. }
  assert (Hset : forall g acc acc',
             In g (EXCEPTION_SET_STRING_REG_finditer X (functionBody self)) ->
             P acc -> set_string_step E X g acc = Ok acc' -> P acc').
  { intros g acc acc' Hg [Hnd Hsound]. unfold set_string_step.
    destruct (generateExpressionUntilChar E g 0 "," "(" ")")
      as [|a rest] eqn:Hsplit; [discriminate|].
    intros H. injection H as <-.
    split; [now apply ordered_add_NoDup|].
    intros x Hx. apply ordered_add_In in Hx. destruct Hx as [-> | Hx].
    - right. right. now exists g, a, rest.
    - now apply Hsound. }
  assert (Hthrown_raises :
            (forall m acc e, thrown_step E X m acc = Raise e -> e = IndexError)
            /\ (forall m acc, thrown_step E X m acc <> OutOfFuel)).
  { split; intros m acc; unfold thrown_step; cbv zeta;
      destruct ((fst m =? "Exception") && negb (snd m =? ""));
      try destruct (generateExpressionUntilChar E (snd m) 0 "," "(" ")");
      try destruct (negb (_ =? ""));
      try discriminate; intros e H; now injection H as <-. }
  assert (Hset_raises :
            (forall g acc e, set_string_step E X g acc = Raise e -> e = IndexError)
            /\ (forall g acc, set_string_step E X g acc <> OutOfFuel)).
  { split; intros g acc; unfold set_string_step;
      destruct (generateExpressionUntilChar E g 0 "," "(" ")");
      try discriminate; intros e H; now injection H as <-. }
  unfold getExceptionsFromCode.
  destruct (for_each (thrown_step E X)
              (EXCEPTION_PY_REG_finditer X (functionBody self)) [])
    as [acc1 | e1 |] eqn:H1.
  - assert (P1 : P acc1).
    { apply (for_each_invariant (thrown_step E X) P _ Hthrown [] acc1);
        [|assumption].
      split; [constructor | intros x []]. }
    destruct (for_each_raises (set_string_step E X)
                (EXCEPTION_SET_STRING_REG_finditer X (functionBody self))
                (proj1 Hset_raises) (proj2 Hset_raises) acc1) as [Hr Hf].
    split; [|split; assumption].
    intros exceptions H2.
    exact (for_each_invariant (set_string_step E X) P _ Hset acc1 exceptions
             P1 H2).
  - destruct (for_each_raises (thrown_step E X)
                (EXCEPTION_PY_REG_finditer X (functionBody self))
                (proj1 Hthrown_raises) (proj2 Hthrown_raises) []) as [Hr Hf].
    split; [discriminate|]. split; [|discriminate].
    intros e H. injection H as <-. now apply Hr.
  - destruct (for_each_raises (thrown_step E X)
                (EXCEPTION_PY_REG_finditer X (functionBody self))
                (proj1 Hthrown_raises) (proj2 Hthrown_raises) []) as [Hr Hf].
    now elim Hf.
Qed.

Lemma getExceptionsFromCode_sound_witness :
  let self := Sample.converter SampleExceptions.body "" in
  getExceptionsFromCode Sample.externals SampleExceptions.externals self
    = Ok ["TypeError"; "ValueError"]
  /\ NoDup ["TypeError"; "ValueError"]
  /\ forall x, In x ["TypeError"; "ValueError"] ->
       reported_by_body Sample.externals SampleExceptions.externals self x.
Proof.
  cbv zeta. split; [reflexivity|].
  apply (proj1 (getExceptionsFromCode_sound
                  Sample.externals SampleExceptions.externals
                  (Sample.converter SampleExceptions.body ""))).
  reflexivity.
Defined.

(* ===================================================================== *)
(** ** Base classes taken from the header *)
(* ===================================================================== *)

(** A base class whose name starts with [Q], other than [QMainWindow], is
    refused as an unknown Qt class, also when its name ends in [Py] (as
    [QuantityPy] does) and the class registry knows it; nothing is added to
    the required imports.  And when [_getPythonClass] answers [None] or
    raises, the required imports are as they were. *)
Theorem _getPythonClass_refuses_Q_classes
  (E : Externals) (baseClass : string) (requiredImports : OrderedStrSet) :
  (startswith baseClass "Q" = true -> baseClass <> "QMainWindow" ->
   Klass._getPythonClass E baseClass requiredImports
   = (Klass.ValueError "Unknown qt class", requiredImports))
  /\ (forall r s, Klass._getPythonClass E baseClass requiredImports = (r, s) ->
        (forall c, r <> Klass.Returned (Some c)) -> s = requiredImports).
Proof.
  split.
  - intros HQ Hmain. unfold Klass._getPythonClass.
    apply String.eqb_neq in Hmain. rewrite Hmain.
    unfold StrWrapper.start. simpl. now rewrite HQ.
  - intros r s. unfold Klass._getPythonClass, Klass.import_and_return.
    repeat match goal with
           | |- context [if ?b then _ else _] => destruct b
           | |- context [match getModuleName E ?c with _ => _ end] =>
               destruct (getModuleName E c)
           end;
      intros H Hr; injection H as <- <-;
      try reflexivity; now elim (Hr _ eq_refl).
Qed.

Lemma _getPythonClass_refuses_Q_classes_witness :
  Klass._getPythonClass Sample.externals "QuantityPy" ["FreeCAD"]
  = (Klass.ValueError "Unknown qt class", ["FreeCAD"]).
Proof.
  apply (proj1 (_getPythonClass_refuses_Q_classes
                  Sample.externals "QuantityPy" ["FreeCAD"])).
  - reflexivity.
  - discriminate.
Defined.

(* ===================================================================== *)
(** ** The return types handed to the annotation *)
(* ===================================================================== *)

Section ReturnTypes.

Lemma RetType_eqb_eq (a b : RetType) : RetType_eqb a b = true <-> a = b.
Proof.
  destruct a as [x | x |], b as [y | y |]; simpl;
    try (split; [discriminate | intros H; discriminate H]);
    try (split; reflexivity).
  - rewrite String.eqb_eq. split; [now intros -> | now intros [= ->]].
  - destruct (list_eq_dec string_dec x y) as [-> | Hne].
    + split; reflexivity.
    + split; [discriminate | intros [= ->]; now elim Hne].
Qed.

Lemma ordered_add_RetType_In (x y : RetType) (l : list RetType) :
  In y (ordered_add RetType_eqb x l) <-> y = x \/ In y l.
Proof.
  induction l as [|z l IH]; simpl; [intuition|].
  destruct (RetType_eqb z x) eqn:Hz; simpl.
  - apply RetType_eqb_eq in Hz. subst z. intuition.
  - rewrite IH. intuition.
Qed.

Lemma ordered_add_RetType_NoDup (x : RetType) (l : list RetType) :
  NoDup l -> NoDup (ordered_add RetType_eqb x l).
Proof.
  induction 1 as [|z l Hz Hl IH]; simpl; [repeat constructor; intros []|].
  destruct (RetType_eqb z x) eqn:Hzx; [now constructor|].
  constructor; [|assumption].
  rewrite ordered_add_RetType_In. intros [-> | H]; [|contradiction].
  assert (Hrefl : RetType_eqb x x = true) by now apply RetType_eqb_eq.
  congruence.
Qed.

Lemma ordered_of_list_RetType (items : list RetType) :
  NoDup (ordered_of_list RetType_eqb items)
  /\ forall t, In t (ordered_of_list RetType_eqb items) <-> In t items.
Proof.
  unfold ordered_of_list.
  enough (H : forall acc, NoDup acc ->
            NoDup (fold_left (fun a x => ordered_add RetType_eqb x a) items acc)
            /\ forall t,
                 In t (fold_left (fun a x => ordered_add RetType_eqb x a)
                         items acc)
                 <-> In t acc \/ In t items).
  { destruct (H [] (NoDup_nil _)) as [H1 H2]. split; [assumption|].
    intros t. rewrite H2. simpl. tauto. }
  induction items as [|x items IH]; intros acc Hacc; simpl.
  - split; [assumption | tauto].
  - destruct (IH _ (ordered_add_RetType_NoDup x acc Hacc)) as [H1 H2].
    split; [assumption|]. intros t.
    rewrite H2, ordered_add_RetType_In. intuition (subst; auto).
Qed.

Variable E : Externals.
Variable self : Self.
Variable fuel : nat.

Lemma _genReturnType_items_flat (matches : list (string * nat)) :
  forall s items s',
    _genReturnType_items E self fuel matches s = (Ok items, s') ->
    Forall (fun t => forall u, t <> TUnion u) items.
Proof.
  induction matches as [|m rest IH]; intros s items s'; simpl.
  - intros H. injection H as <- _. constructor.
  - unfold bind at 1.
    destruct (_genReturnType_step E self fuel m s) as [[y | e |] s1] eqn:Hstep;
      try discriminate.
    unfold bind, ret.
    destruct (_genReturnType_items E self fuel rest s1) as [[l | e |] s2]
      eqn:Hrest; try discriminate.
    intros H. injection H as <- _.
    apply Forall_app. split; [|now apply (IH s1 l s2)].
    unfold _genReturnType_step, try_except_InvalidReturnType, bind, ret
      in Hstep.
    destruct (getExpressionType E self fuel (fst m) (snd m) false s)
      as [[[t | u |] | [] |] s0]; try discriminate;
      injection Hstep as <- _.
    + repeat constructor. discriminate.
    + apply Forall_forall. intros t Ht. apply in_map_iff in Ht.
      destruct Ht as [x [<- _]]. discriminate.
    + repeat constructor. discriminate.
    + constructor.
Qed.

End ReturnTypes.

(** What [getReturnType] hands to [RawRepr] is flat and free of
    repetition: the types of all return statements with each union replaced
    by its members, each type once; no union is among them.  A type is
    handed over exactly when some return statement yields it. *)
Theorem getReturnType_types_are_flat_and_unique
  (E : Externals) (self : Self) (fuel : nat)
  (s s' : OrderedStrSet) (yielded : list RetType) :
  _genReturnType E self fuel s = (Ok yielded, s') ->
  exists types,
    fst (getReturnType E self fuel s) = Ok (RawRepr E types)
    /\ NoDup types
    /\ (forall t, In t types <-> In t yielded)
    /\ Forall (fun t => forall u, t <> TUnion u) types.
Proof.
  intros Hgen. exists (ordered_of_list RetType_eqb yielded).
  destruct (ordered_of_list_RetType yielded) as [Hnd Hin].
  repeat split; try assumption; try (now apply Hin).
  - unfold getReturnType, bind at 1. rewrite Hgen. reflexivity.
  - apply Forall_forall. intros t Ht. apply Hin in Ht.
    unfold _genReturnType, generator in Hgen.
    destruct (_genReturnType_items E self fuel
                (REG_RETURN_finditer (functionBody self)) s)
      as [[l | [] |] s1] eqn:Hitems; try discriminate;
      injection Hgen as <- _.
    pose proof (_genReturnType_items_flat E self fuel _ _ _ _ Hitems) as Hflat.
    rewrite Forall_forall in Hflat. now apply Hflat.
Qed.

Lemma getReturnType_types_are_flat_and_unique_witness :
  exists types,
    fst (getReturnType Sample.externals
           (Sample.converter
              "if (a) return Py::Float(v); if (b) return Py::Float(w); return Py::String(s);"
              "") 2 [])
    = Ok (RawRepr Sample.externals types)
    /\ NoDup types
    /\ (forall t, In t types <-> In t [TStr "float"; TStr "float"; TStr "str"])
    /\ Forall (fun t => forall u, t <> TUnion u) types.
Proof.
  apply (getReturnType_types_are_flat_and_unique
           Sample.externals
           (Sample.converter
              "if (a) return Py::Float(v); if (b) return Py::Float(w); return Py::String(s);"
              "") 2 [] []).
  reflexivity.
Defined.
